(** * CoinbaseLiquidator: a shallow embedding of [coinbase_liquidation.py]

    The bot reads the balances of a brokerage account, plans the sale of
    every asset that is not cash, submits (or simulates) the market sell
    orders and writes a CSV report.  This development embeds the methods of
    [CoinbaseLiquidationBot] and [main] as Rocq functions and proves the
    properties the specification states about them.

    Conventions of the embedding:
    - a Python [float] is an IEEE 754 binary64 number, modelled by the
      Standard Library's [spec_float] with [prec = 53] and [emax = 1024];
    - a Python [dict] with string keys is a [gmap string _];
    - the vendor client, the clock, the keyboard and the file system are an
      [Environment]: every call goes through it, threads its state and is
      recorded in a trace;
    - an exception is a value of type [exception]; code that may raise
      returns [result];
    - calls to [self.logger] are left out: they return nothing and no
      branch of the program depends on them;
    - [get_accounts], [process_accounts_for_balances] and
      [get_account_balances], which [run_liquidation] does not call, are
      embedded after the pipeline, over a client that also lists the
      accounts. *)

From Stdlib Require Import ZArith QArith Lia Ascii.
From Stdlib Require Import Floats.SpecFloat.
From stdpp Require Import gmap strings list fin_maps pretty.

Local Open Scope string_scope.
Local Open Scope list_scope.
Local Open Scope Z_scope.

(** ** Exceptions *)

(** [HTTPError] is the exception of [requests]; [e.response.status_code] is
    its first field.  Every other exception the program meets is caught as
    [Exception] and only its message [str(e)] is used. *)
Inductive exception :=
  | HTTPError (status_code : Z) (message : string)
  | Exception (message : string).

Definition str_exception (e : exception) : string :=
  match e with
  | HTTPError _ m => m
  | Exception m => m
  end.

Inductive result (A : Type) :=
  | Ok (a : A)
  | Raise (e : exception).
Arguments Ok {A} a.
Arguments Raise {A} e.

Definition result_bind {A B} (r : result A) (k : A -> result B) : result B :=
  match r with
  | Ok a => k a
  | Raise e => Raise e
  end.

(** ** Python floats *)

Module PyFloat.

Abbreviation float := spec_float.

Definition prec : Z := 53.
Definition emax : Z := 1024.

Definition zero : float := S754_zero false.

Definition mul : float -> float -> float := SFmul prec emax.
Definition div : float -> float -> float := SFdiv prec emax.
Definition add : float -> float -> float := SFadd prec emax.

(** [float(n)] for an [int] of the program (round to nearest even). *)
Definition of_int (n : Z) : float := binary_normalize prec emax n 0 false.

(** Comparisons, written as in Python: with a NaN on either side each of
    them is [false]. *)
Definition gt (x y : float) : bool := SFltb y x.
Definition ge (x y : float) : bool := SFleb y x.
Definition le (x y : float) : bool := SFleb x y.
Definition lt (x y : float) : bool := SFltb x y.

(** The exact rational value of a finite float. *)
Definition to_Q (x : float) : option Q :=
  match x with
  | S754_zero _ => Some 0%Q
  | S754_finite s m e =>
      let z := if s then Z.neg m else Z.pos m in
      Some (match e with
            | Z.neg k => Qmake z (2 ^ k)%positive
            | _ => Qmake (z * 2 ^ e) 1
            end)
  | _ => None
  end.

(** [math.floor(x)]: the largest [int] not above [x]. *)
Definition floor (x : float) : result Z :=
  match x with
  | S754_zero _ => Ok 0
  | S754_finite s m e => Ok (Z.shiftl (if s then Z.neg m else Z.pos m) e)
  | S754_infinity _ => Raise (Exception "cannot convert float infinity to integer")
  | S754_nan => Raise (Exception "cannot convert float NaN to integer")
  end.

(** [a / b] for two [int]s: the correctly rounded quotient. *)
Definition int_truediv (a b : Z) : result float :=
  match a, b with
  | _, 0 => Raise (Exception "division by zero")
  | 0, Z.pos _ => Ok (S754_zero false)
  | 0, Z.neg _ => Ok (S754_zero true)
  | _, _ =>
      let s := xorb (a <? 0) (b <? 0) in
      let '(mz, ez, lz) := SFdiv_core_binary prec emax (Z.abs a) 0 (Z.abs b) 0 in
      match binary_round_aux prec emax s mz ez lz with
      | S754_infinity _ => Raise (Exception "integer division result too large for a float")
      | q => Ok q
      end
  end.

(** Round a non-negative rational [n / d] to the nearest integer, ties to
    the even one. *)
Definition round_half_even (n : Z) (d : positive) : Z :=
  let q := n / Z.pos d in
  let r := n mod Z.pos d in
  match 2 * r ?= Z.pos d with
  | Lt => q
  | Gt => q + 1
  | Eq => if Z.even q then q else q + 1
  end.

(** The digits of [|x| * 10^p] rounded to an integer. *)
Definition scaled_digits (m : positive) (e : Z) (p : nat) : Z :=
  match e with
  | Z.neg k => round_half_even (Z.pos m * 10 ^ Z.of_nat p) (2 ^ k)
  | _ => Z.pos m * 2 ^ e * 10 ^ Z.of_nat p
  end.

Fixpoint zeros (n : nat) : string :=
  match n with
  | O => ""
  | S n => String "0" (zeros n)
  end.

(** Insert the decimal point [p] digits from the right of the digit
    string of [n], padding with zeros on the left as needed. *)
Definition fixed_digits (n : Z) (p : nat) : string :=
  let ds := pretty n in
  let ds := zeros (S p - String.length ds) +:+ ds in
  let k := (String.length ds - p)%nat in
  match p with
  | O => ds
  | _ => String.substring 0 k ds +:+ "." +:+ String.substring k p ds
  end.

(** [f"{x:.{p}f}"]. *)
Definition format_fixed (x : float) (p : nat) : string :=
  match x with
  | S754_nan => "nan"
  | S754_infinity s => if s then "-inf" else "inf"
  | S754_zero s => (if s then "-" else "") +:+ fixed_digits 0 p
  | S754_finite s m e =>
      (if s then "-" else "") +:+ fixed_digits (scaled_digits m e p) p
  end.

End PyFloat.

Abbreviation float := PyFloat.float.

(** ** Strings *)

(** [s.rstrip(c)] for a single character [c]. *)
Definition rstrip (c : ascii) (s : string) : string :=
  String.rev
    ((fix go (r : string) : string :=
        match r with
        | String a r' => if Ascii.eqb a c then go r' else r
        | EmptyString => EmptyString
        end) (String.rev s)).

(** [c in s] for a character. *)
Fixpoint contains_char (c : ascii) (s : string) : bool :=
  match s with
  | EmptyString => false
  | String a s' => Ascii.eqb a c || contains_char c s'
  end.

(** [needle in haystack] for strings. *)
Fixpoint contains (needle haystack : string) : bool :=
  String.prefix needle haystack ||
  match haystack with
  | EmptyString => false
  | String _ h => contains needle h
  end.

(** ** Order sizes *)

(** The precision table of [_format_amount_for_order]. *)
Definition precision_map : gmap string Z :=
  list_to_map [
    (* High precision (8 decimals) *)
    ("BTC", 8); ("ETH", 8); ("LTC", 8); ("BCH", 8); ("DOT", 8); ("LINK", 8);
    ("UNI", 8); ("AAVE", 8); ("SUSHI", 8); ("CRV", 8); ("YFI", 8); ("COMP", 8);
    ("INDEX", 8); ("CVX", 8); ("EIGEN", 8); ("KERNEL", 8); ("ETHFI", 8);
    (* Medium precision (6 decimals) *)
    ("USDC", 6); ("USDT", 6); ("DAI", 6); ("BUSD", 6); ("TUSD", 6);
    ("HOPR", 6); ("OMNI", 6); ("CLANKER", 6); ("LOKA", 6); ("SWELL", 6);
    ("FIS", 6); ("PENGU", 6); ("SD", 6); ("GIGA", 6); ("HFT", 6);
    ("ALT", 6); ("REZ", 6); ("SXT", 6);
    (* Low precision (4 decimals) *)
    ("DOGE", 4); ("SHIB", 4); ("PEPE", 4); ("FLOKI", 4); ("BONK", 4); ("WIF", 4);
    ("PIRATE", 4); ("POPCAT", 4); ("COOKIE", 4); ("KEYCAT", 4);
    ("TURBO", 4); ("DEGEN", 4); ("MOG", 4); ("DOGINME", 4);
    ("ALEPH", 4); ("MOODENG", 4); ("AST", 4); ("PRCL", 4); ("PROMPT", 4);
    ("PNUT", 4); ("IDEX", 4); ("MDT", 4); ("SYRUP", 4);
    (* Very low precision (2 decimals) *)
    ("STRK", 2); ("ARB", 2); ("OP", 2); ("MATIC", 2); ("AVAX", 2); ("SOL", 2);
    ("ATOM", 2); ("NEAR", 2); ("FTM", 2); ("ONE", 2); ("ALGO", 2);
    (* Integer precision (0 decimals) *)
    ("EDGE", 0); ("ZORA", 0);
    ("XRP", 0); ("XLM", 0); ("ADA", 0); ("TRX", 0); ("EOS", 0); ("XTZ", 0)
  ].

(** [precision_map.get(currency, 6)]. *)
Definition precision_of (currency : string) : Z :=
  default 6 (precision_map !! currency).

Definition _format_amount_for_order (currency : string) (amount : float)
  : result string :=
  let precision := precision_of currency in
  if precision =? 0 then
    result_bind (PyFloat.floor amount) (fun n => Ok (pretty n))
  else
    let multiplier := 10 ^ precision in
    result_bind (PyFloat.floor (PyFloat.mul amount (PyFloat.of_int multiplier)))
      (fun n =>
    result_bind (PyFloat.int_truediv n multiplier) (fun floored_amount =>
    let formatted := PyFloat.format_fixed floored_amount (Z.to_nat precision) in
    Ok (if contains_char "." formatted
        then rstrip "." (rstrip "0" formatted)
        else formatted))).

(** The number a decimal string denotes: an optional sign, digits, and
    optionally a point and more digits. *)
Definition digit_value (c : ascii) : option Z :=
  let n := Z.of_nat (nat_of_ascii c) - 48 in
  if (0 <=? n) && (n <=? 9) then Some n else None.

Fixpoint decimal_digits (s : string) (acc : Z) (scale : option positive)
  : option (Z * positive) :=
  match s with
  | EmptyString => Some (acc, default 1%positive scale)
  | String c s' =>
      if Ascii.eqb c "." then
        match scale with
        | None => decimal_digits s' acc (Some 1%positive)
        | Some _ => None
        end
      else
        match digit_value c with
        | Some d =>
            decimal_digits s' (10 * acc + d) ((fun k => (10 * k)%positive) <$> scale)
        | None => None
        end
  end.

Definition decimal_value (s : string) : option Q :=
  match s with
  | EmptyString => None
  | String "-" s' =>
      (fun '(n, d) => Qmake (- n) d) <$> decimal_digits s' 0 None
  | _ => (fun '(n, d) => Qmake n d) <$> decimal_digits s 0 None
  end.

(** ** Data of the program *)

(** The values the program stores in its result dictionaries. *)
Inductive pyvalue :=
  | VNone
  | VStr (s : string)
  | VFloat (x : float).

(** A balance dictionary, as built by [get_portfolio_balances] (with
    ['usd_value']) and by [process_accounts_for_balances] (without). *)
Module Balance.
Record t := mk {
  account_id : string;
  currency : string;
  balance : float;
  currency_code : string;
  usd_value : option float
}.
End Balance.

(** An entry of the liquidation plan. *)
Module Trade.
Record t := mk {
  currency : string;
  amount : float;
  price_per_unit : float;
  usd_value : float;
  account_id : string
}.
End Trade.

(** An entry of [executed_trades]: a dictionary, because the report writer
    tests which keys it has and adds the missing ones. *)
Abbreviation ExecutedTrade := (gmap string pyvalue).

(** ** The vendor client and the rest of the outside world *)

(** The objects the vendor client returns.  A numeric attribute that the
    program passes to [float(...)] is [Some x] when the conversion gives
    [x] and [None] when it raises. *)
Record Portfolio := { uuid : string }.

Record SpotPosition := {
  asset : string;
  account_uuid : string;
  total_balance_crypto : option float;
  total_balance_fiat : option float
}.

Record Product := { price : option float }.

(** An attribute of the order response is [None] when [hasattr] is false. *)
Record Order := {
  order_id : option pyvalue;
  id : option pyvalue
}.

Record OrderRequest := {
  product_id : string;
  side : string;
  client_order_id : string;
  base_size : string
}.

(** [datetime.now()], through the three renderings the program takes of
    it: [int(d.timestamp())], [d.isoformat()] and
    [d.strftime("%Y%m%d_%H%M%S")]. *)
Record datetime := {
  timestamp : Z;
  isoformat : string;
  strftime : string
}.

(** The rows handed to [csv.DictWriter]: the cells of each row, in the
    order of [fieldnames]; the dialect (separator, quoting, line ends) is
    the library's. *)
Abbreviation Rows := (list (list string)).

Inductive Event :=
  | EJsonLoad (path : string)
  | ERESTClient (api_key api_secret : string)
  | EGetPortfolios
  | EGetPortfolioBreakdown (portfolio_id : string)
  | EGetProduct (product_id : string)
  | ECreateOrder (request : OrderRequest)
  | ESleep (seconds : Q)
  | ENow
  | EPrint (text : string)
  | EInput (prompt answer : string)
  | EWriteFile (filename : string) (rows : Rows).

(** What the program needs of its surroundings.  [W] is the state of the
    world; each operation returns the new one. *)
Class Environment (W : Type) := {
  json_load : string -> W -> result (gmap string string) * W;
  rest_client : string -> string -> W -> result unit * W;
  client_get_portfolios : W -> result (list Portfolio) * W;
  client_get_portfolio_breakdown : string -> W -> result (list SpotPosition) * W;
  client_get_product : string -> W -> result Product * W;
  client_create_order : OrderRequest -> W -> result Order * W;
  datetime_now : W -> datetime * W;
  read_line : W -> string * W;
  (* two builtins of the interpreter: [str(x)] and [sum(xs)] on floats *)
  float_str : float -> string;
  float_sum : list float -> float
}.

(** ** The monad of the program: world and trace *)

Section Monad.

Context {W : Type}.

Record State := { world : W; trace : list Event }.

Definition M (A : Type) : Type := State -> A * State.

Definition ret {A} (a : A) : M A := fun s => (a, s).

Definition bind {A B} (m : M A) (k : A -> M B) : M B :=
  fun s => let '(a, s') := m s in k a s'.

End Monad.

Arguments State : clear implicits.
Arguments M : clear implicits.

Notation "'let*' x ':=' m 'in' k" := (bind m (fun x => k))
  (at level 10, x pattern, m at level 100, k at level 200).

Section Program.

Context {W : Type} `{Environment W}.

(** Run an operation of the environment and record it. *)
Definition perform {A} (ev : A -> Event) (op : W -> A * W) : M W A :=
  fun s => let '(a, w) := op (world s) in
           (a, {| world := w; trace := trace s ++ [ev a] |}).

Definition emit (ev : Event) : M W unit :=
  fun s => (tt, {| world := world s; trace := trace s ++ [ev] |}).

Definition get_portfolios : M W (result (list Portfolio)) :=
  perform (fun _ => EGetPortfolios) client_get_portfolios.
Definition get_portfolio_breakdown (pid : string) : M W (result (list SpotPosition)) :=
  perform (fun _ => EGetPortfolioBreakdown pid) (client_get_portfolio_breakdown pid).
Definition get_product (pid : string) : M W (result Product) :=
  perform (fun _ => EGetProduct pid) (client_get_product pid).
Definition create_order (req : OrderRequest) : M W (result Order) :=
  perform (fun _ => ECreateOrder req) (client_create_order req).
Definition now : M W datetime := perform (fun _ => ENow) datetime_now.
Definition sleep (seconds : Q) : M W unit := emit (ESleep seconds).
Definition print (text : string) : M W unit := emit (EPrint text).
Definition input (prompt : string) : M W string := perform (EInput prompt) read_line.

(** [float(v)] for an attribute of a vendor object. *)
Definition to_float (v : option float) : result float :=
  match v with
  | Some x => Ok x
  | None => Raise (Exception "could not convert string to float")
  end.

(** The bot object: the fields [__init__] sets from its arguments.  The
    client is part of the world. *)
Record CoinbaseLiquidationBot := {
  api_key_path : string;
  min_threshold : float
}.

(** *** [load_api_credentials] *)

Definition load_api_credentials (self : CoinbaseLiquidationBot) : M W bool :=
  let* credentials :=
    perform (fun _ => EJsonLoad (api_key_path self)) (json_load (api_key_path self)) in
  match credentials with
  | Raise _ => ret false
  | Ok credentials =>
      match credentials !! "name", credentials !! "privateKey" with
      | Some api_key_name, Some private_key =>
          let* client :=
            perform (fun _ => ERESTClient api_key_name private_key)
                    (rest_client api_key_name private_key) in
          match client with
          | Ok _ => ret true
          | Raise _ => ret false
          end
      | _, _ => ret false
      end
  end.

(** *** [get_portfolio_balances] *)

(** The body of the loop over the spot positions: [Some] balance when one
    is appended, [None] when the position is passed over or raises. *)
Definition balance_of_position (self : CoinbaseLiquidationBot) (a : SpotPosition)
  : option Balance.t :=
  match to_float (total_balance_crypto a) with
  | Raise _ => None
  | Ok balance_value =>
      match to_float (total_balance_fiat a) with
      | Raise _ => None
      | Ok usd_value =>
          if PyFloat.gt balance_value PyFloat.zero
             && PyFloat.ge usd_value (min_threshold self)
          then Some {| Balance.account_id := account_uuid a;
                       Balance.currency := asset a;
                       Balance.balance := balance_value;
                       Balance.currency_code := asset a;
                       Balance.usd_value := Some usd_value |}
          else None
      end
  end.

Definition get_portfolio_balances (self : CoinbaseLiquidationBot)
  : M W (list Balance.t) :=
  let* portfolios := get_portfolios in
  match portfolios with
  | Raise _ => ret []
  | Ok [] => ret []
  | Ok (first :: _) =>
      let portfolio_id := uuid first in
      let* breakdown := get_portfolio_breakdown portfolio_id in
      match breakdown with
      | Raise _ => ret []
      | Ok breakdown_list => ret (omap (balance_of_position self) breakdown_list)
      end
  end.

(** *** [get_current_prices] *)

(** [product_response = self.client.get_product(product_id)] followed by
    [price = float(product_response.price)]. *)
Definition fetch_price (product_id : string) : M W (result float) :=
  let* product_response := get_product product_id in
  ret (result_bind product_response (fun r => to_float (price r))).

(** The loop of [get_current_prices], from the dictionary built so far. *)
Fixpoint get_current_prices_loop (currencies : list string)
    (prices : gmap string float) : M W (gmap string float) :=
  match currencies with
  | [] => ret prices
  | currency :: rest =>
      let product_id := currency +:+ "-USD" in
      let* first := fetch_price product_id in
      match first with
      | Ok price =>
          let* _ := sleep (1 # 10) in
          get_current_prices_loop rest (<[currency := price]> prices)
      | Raise (HTTPError status_code _) =>
          if status_code =? 429 then
            let* _ := sleep 2 in
            let* retry := fetch_price product_id in
            match retry with
            | Ok price => get_current_prices_loop rest (<[currency := price]> prices)
            | Raise _ => get_current_prices_loop rest prices
            end
          else get_current_prices_loop rest prices
      | Raise (Exception _) => get_current_prices_loop rest prices
      end
  end.

Definition get_current_prices (currencies : list string) : M W (gmap string float) :=
  get_current_prices_loop currencies ∅.

(** *** [calculate_liquidation_plan] *)

Definition cash_equivalents : list string := ["USDC"; "USD"].

(** The filter of the first comprehension. *)
Definition to_liquidate (b : Balance.t) : bool :=
  negb (bool_decide (Balance.currency_code b ∈ cash_equivalents))
  && PyFloat.gt (Balance.balance b) PyFloat.zero.

(** The body of the planning loop: the entry appended for a balance, if
    any.  The [else 0] of the display price is the float zero here; it
    prints and compares as the integer does. *)
Definition plan_entry (self : CoinbaseLiquidationBot) (prices : gmap string float)
    (b : Balance.t) : option Trade.t :=
  let currency := Balance.currency_code b in
  let amount := Balance.balance b in
  let priced :=
    match Balance.usd_value b with
    | Some usd_value =>
        let fallback :=
          if PyFloat.gt amount PyFloat.zero then PyFloat.div usd_value amount
          else PyFloat.zero in
        Some (default fallback (prices !! currency), usd_value)
    | None =>
        match prices !! currency with
        | Some price_per_unit => Some (price_per_unit, PyFloat.mul amount price_per_unit)
        | None => None
        end
    end in
  match priced with
  | Some (price_per_unit, usd_value) =>
      if PyFloat.ge usd_value (min_threshold self)
      then Some {| Trade.currency := currency;
                   Trade.amount := amount;
                   Trade.price_per_unit := price_per_unit;
                   Trade.usd_value := usd_value;
                   Trade.account_id := Balance.account_id b |}
      else None
  | None => None
  end.

Definition calculate_liquidation_plan (self : CoinbaseLiquidationBot)
    (balances : list Balance.t) : M W (list Trade.t) :=
  let currencies_to_liquidate := filter (fun b => to_liquidate b = true) balances in
  match currencies_to_liquidate with
  | [] => ret []
  | _ =>
      let currencies_needing_prices :=
        Balance.currency_code <$>
          filter (fun b => Balance.usd_value b = None) currencies_to_liquidate in
      let* prices :=
        match currencies_needing_prices with
        | [] => ret ∅
        | _ => get_current_prices currencies_needing_prices
        end in
      ret (omap (plan_entry self prices) currencies_to_liquidate)
  end.

(** *** [execute_liquidation] *)

(** The dictionary appended when the order went through. *)
Definition executed_entry (trade : Trade.t) (order_id : pyvalue) (d : datetime)
  : ExecutedTrade :=
  list_to_map [
    ("currency", VStr (Trade.currency trade));
    ("amount", VFloat (Trade.amount trade));
    ("usd_value", VFloat (Trade.usd_value trade));
    ("order_id", order_id);
    ("status", VStr "EXECUTED");
    ("timestamp", VStr (isoformat d))
  ].

(** The [except Exception as e] branch. *)
Definition error_message (e : exception) : string :=
  let error_msg := str_exception e in
  if contains "Invalid product_id" error_msg
  then "No USD trading pair available"
  else error_msg.

Definition failed_entry (trade : Trade.t) (error_msg : string) (d : datetime)
  : ExecutedTrade :=
  list_to_map [
    ("currency", VStr (Trade.currency trade));
    ("amount", VFloat (Trade.amount trade));
    ("usd_value", VFloat (Trade.usd_value trade));
    ("order_id", VNone);
    ("status", VStr "FAILED");
    ("error", VStr error_msg);
    ("timestamp", VStr (isoformat d))
  ].

(** The [else] branch: trial mode. *)
Definition trial_entry (trade : Trade.t) (d : datetime) : ExecutedTrade :=
  list_to_map [
    ("currency", VStr (Trade.currency trade));
    ("amount", VFloat (Trade.amount trade));
    ("usd_value", VFloat (Trade.usd_value trade));
    ("order_id", VStr "TRIAL_MODE");
    ("status", VStr "TRIAL");
    ("timestamp", VStr (isoformat d))
  ].

(** The [try] block of live mode: the client order id, the order size, the
    call, the order id of the response. *)
Definition submit_order (trade : Trade.t) : M W (result pyvalue) :=
  let currency := Trade.currency trade in
  let* d := now in
  let client_order_id := "liquidation_" +:+ currency +:+ "_" +:+ pretty (timestamp d) in
  match _format_amount_for_order currency (Trade.amount trade) with
  | Raise e => ret (Raise e)
  | Ok size =>
      let* order :=
        create_order {| product_id := currency +:+ "-USD";
                        side := "SELL";
                        client_order_id := client_order_id;
                        base_size := size |} in
      match order with
      | Raise e => ret (Raise e)
      | Ok order =>
          ret (Ok match order_id order with
                  | Some v => v
                  | None =>
                      match id order with
                      | Some v => v
                      | None => VStr client_order_id
                      end
                  end)
      end
  end.

(** The body of the loop over the plan. *)
Definition execute_trade (trade : Trade.t) (live_mode : bool) : M W ExecutedTrade :=
  if live_mode then
    let* submitted := submit_order trade in
    match submitted with
    | Ok order_id =>
        let* d := now in
        ret (executed_entry trade order_id d)
    | Raise e =>
        let error_msg := error_message e in
        let* d := now in
        ret (failed_entry trade error_msg d)
    end
  else
    let* d := now in
    ret (trial_entry trade d).

Fixpoint execute_trades (liquidation_plan : list Trade.t) (live_mode : bool)
    (executed_trades : list ExecutedTrade) : M W (list ExecutedTrade) :=
  match liquidation_plan with
  | [] => ret executed_trades
  | trade :: rest =>
      let* entry := execute_trade trade live_mode in
      execute_trades rest live_mode (executed_trades ++ [entry])
  end.

Definition execute_liquidation (liquidation_plan : list Trade.t) (live_mode : bool)
  : M W (list ExecutedTrade) :=
  match liquidation_plan with
  | [] => ret []
  | _ => execute_trades liquidation_plan live_mode []
  end.

(** *** [generate_csv_report] *)

Definition fieldnames : list string :=
  ["currency"; "amount"; "usd_value"; "order_id"; "status"; "timestamp"; "error"].

(** [for field in fieldnames: if field not in trade: trade[field] = None]. *)
Definition fill_missing_fields (trade : ExecutedTrade) : ExecutedTrade :=
  foldl (fun trade field =>
           match trade !! field with
           | Some _ => trade
           | None => <[field := VNone]> trade
           end) trade fieldnames.

(** [csv.DictWriter._dict_to_list] with the defaults [restval=''] and
    [extrasaction='raise']. *)
Definition dict_to_list (rowdict : ExecutedTrade) : result (list pyvalue) :=
  if bool_decide (dom rowdict ⊆ list_to_set fieldnames)
  then Ok ((fun key => default (VStr "") (rowdict !! key)) <$> fieldnames)
  else Raise (Exception "dict contains fields not in fieldnames").

(** The text the csv writer gives a cell. *)
Definition cell (v : pyvalue) : string :=
  match v with
  | VNone => ""
  | VStr s => s
  | VFloat x => float_str x
  end.

(** The loop over the trades: the trades as the loop leaves them (it adds
    keys to them), the rows written, and the exception that stopped it. *)
Fixpoint write_trades (executed_trades : list ExecutedTrade)
  : list ExecutedTrade * Rows * option exception :=
  match executed_trades with
  | [] => ([], [], None)
  | trade :: rest =>
      let trade := fill_missing_fields trade in
      match dict_to_list trade with
      | Raise e => (trade :: rest, [], Some e)
      | Ok values =>
          let '(rest, rows, e) := write_trades rest in
          (trade :: rest, (cell <$> values) :: rows, e)
      end
  end.

(** [v == text] for a value of a dictionary and a string. *)
Definition equals_str (v : pyvalue) (text : string) : bool :=
  match v with
  | VStr s => String.eqb s text
  | _ => false
  end.

(** [any(trade['status'] == 'TRIAL' for trade in executed_trades)]. *)
Fixpoint any_trial (executed_trades : list ExecutedTrade) : result bool :=
  match executed_trades with
  | [] => Ok false
  | trade :: rest =>
      match trade !! "status" with
      | None => Raise (Exception "'status'")
      | Some status => if equals_str status "TRIAL" then Ok true else any_trial rest
      end
  end.

Definition default_filename (executed_trades : list ExecutedTrade) : M W (result string) :=
  let* d := now in
  ret (result_bind (any_trial executed_trades) (fun trial =>
       let mode := if trial then "trial" else "live" in
       Ok ("coinbase_liquidation_report_" +:+ mode +:+ "_" +:+ strftime d +:+ ".csv"))).

(** Returns the filename (or the exception that escapes) and the trades
    as the function leaves them. *)
Definition generate_csv_report (executed_trades : list ExecutedTrade)
    (filename : option string) : M W (result string * list ExecutedTrade) :=
  let* filename :=
    match filename with
    | None | Some "" => default_filename executed_trades
    | Some f => ret (Ok f)
    end in
  match filename with
  | Raise e => ret (Raise e, executed_trades)
  | Ok filename =>
      match executed_trades with
      | [] =>
          let* _ := emit (EWriteFile filename []) in
          ret (Ok filename, [])
      | _ =>
          let '(trades, rows, e) := write_trades executed_trades in
          let* _ := emit (EWriteFile filename (fieldnames :: rows)) in
          ret (match e with Some e => Raise e | None => Ok filename end, trades)
      end
  end.

(** *** [run_liquidation] and [main] *)

Definition nl : string := String (ascii_of_nat 10) "".

Definition confirm (liquidation_plan : list Trade.t) : M W bool :=
  let total_usd_value := float_sum (Trade.usd_value <$> liquidation_plan) in
  let* _ := print (nl +:+ "[WARNING] You are about to liquidate "
                   +:+ pretty (length liquidation_plan)
                   +:+ " cryptocurrencies worth ~$"
                   +:+ PyFloat.format_fixed total_usd_value 2) in
  let* _ := print "This action cannot be undone!" in
  let* confirmation := input "Type 'CONFIRM' to proceed: " in
  ret (bool_decide (confirmation = "CONFIRM")).

Definition run_liquidation (self : CoinbaseLiquidationBot) (live_mode : bool)
  : M W (result bool) :=
  let* loaded := load_api_credentials self in
  if negb loaded then ret (Ok false) else
  let* balances := get_portfolio_balances self in
  match balances with
  | [] => ret (Ok true)
  | _ =>
      let* liquidation_plan := calculate_liquidation_plan self balances in
      match liquidation_plan with
      | [] => ret (Ok true)
      | _ =>
          let* go := if live_mode then confirm liquidation_plan else ret true in
          if negb go then ret (Ok false) else
          let* executed_trades := execute_liquidation liquidation_plan live_mode in
          let* report := generate_csv_report executed_trades None in
          match fst report with
          | Raise e => ret (Raise e)
          | Ok _ => ret (Ok true)
          end
      end
  end.

Record Args := {
  live : bool;
  arg_min_threshold : float;
  api_key : string
}.

(** [main], after [parse_args]; the value is the exit status of the
    process.  An exception that escapes ends the interpreter with status
    1. *)
Definition main (args : Args) : M W Z :=
  let bot := {| api_key_path := api_key args;
                min_threshold := arg_min_threshold args |} in
  let* success := run_liquidation bot (live args) in
  match success with
  | Ok true =>
      let* _ := print (nl +:+ "[SUCCESS] Liquidation process completed successfully!") in
      ret 0
  | Ok false =>
      let* _ := print (nl +:+ "[ERROR] Liquidation process failed!") in
      ret 1
  | Raise _ => ret 1
  end.

End Program.

(** ** Vocabulary of the properties *)

(** An entry of [executed_trades] records a planned trade: it carries the
    trade's currency, amount and value, and one of the three statuses. *)
Definition recorded (trade : Trade.t) (entry : ExecutedTrade) : Prop :=
  entry !! "currency" = Some (VStr (Trade.currency trade))
  /\ entry !! "amount" = Some (VFloat (Trade.amount trade))
  /\ entry !! "usd_value" = Some (VFloat (Trade.usd_value trade))
  /\ exists status, entry !! "status" = Some (VStr status)
                    /\ status ∈ ["EXECUTED"; "FAILED"; "TRIAL"].

(** A holding: what [get_portfolio_balances] reads of a position before it
    builds the balance dictionary (lines 132-144): the symbol, the quantity,
    its valuation and the account.  The dictionary has both ['currency']
    and ['currency_code'] set to the symbol and always has ['usd_value']. *)
Record Holding := {
  asset_symbol : string;
  quantity : float;
  valuation : float;
  holding_account : string
}.

Definition balance_of_holding (h : Holding) : Balance.t :=
  {| Balance.account_id := holding_account h;
     Balance.currency := asset_symbol h;
     Balance.balance := quantity h;
     Balance.currency_code := asset_symbol h;
     Balance.usd_value := Some (valuation h) |}.

(** The holdings that are sold: not cash, a positive quantity, a valuation
    at or above the threshold. *)
Definition sellable (threshold : float) (h : Holding) : bool :=
  negb (bool_decide (asset_symbol h ∈ cash_equivalents))
  && PyFloat.gt (quantity h) PyFloat.zero
  && PyFloat.ge (valuation h) threshold.

(** The order planned for a holding. *)
Definition order_of_holding (h : Holding) : Trade.t :=
  {| Trade.currency := asset_symbol h;
     Trade.amount := quantity h;
     Trade.price_per_unit := PyFloat.div (valuation h) (quantity h);
     Trade.usd_value := valuation h;
     Trade.account_id := holding_account h |}.

Section ReportVocabulary.

Context {W : Type} `{Environment W}.

(** The row of a trade: for each column, the text of the value stored
    under it, and the empty text when the trade has no such key. *)
Definition row_of (trade : ExecutedTrade) : list string :=
  (fun key => match trade !! key with
              | Some v => cell v
              | None => ""
              end) <$> fieldnames.

(** An execution result has a status and no field outside the seven. *)
Definition is_execution_result (trade : ExecutedTrade) : Prop :=
  dom trade ⊆ list_to_set fieldnames /\ is_Some (trade !! "status").

End ReportVocabulary.

(** Kinds of events.  A quiet event reads the credentials or the account
    or waits: it asks the user nothing, submits no order, writes no file. *)
Definition quiet (ev : Event) : Prop :=
  match ev with
  | EJsonLoad _ | ERESTClient _ _ | EGetPortfolios | EGetPortfolioBreakdown _
  | EGetProduct _ | ESleep _ => True
  | _ => False
  end.

Definition not_input (ev : Event) : Prop :=
  match ev with
  | EInput _ _ => False
  | _ => True
  end.

Definition submits_or_writes (ev : Event) : Prop :=
  match ev with
  | ECreateOrder _ | EWriteFile _ _ => True
  | _ => False
  end.

(** [appends P m]: running [m] only adds events that satisfy [P] to the
    trace. *)
Definition appends {W A} (P : Event -> Prop) (m : M W A) : Prop :=
  forall s, exists evs, trace (snd (m s)) = trace s ++ evs /\ Forall P evs.

(** ** A scripted world

    A concrete [Environment] for running the program: the vendor's replies
    are read off lists, the clock ticks once per reading, the keyboard is a
    list of lines. *)

Module Sim.

Record t := {
  credentials : result (gmap string string);
  portfolios : result (list Portfolio);
  breakdown : result (list SpotPosition);
  products : list (result Product);
  orders : list (result Order);
  clock : Z;
  keyboard : list string
}.

Definition stamp (t : Z) : datetime :=
  {| timestamp := t; isoformat := "T" +:+ pretty t; strftime := "D" +:+ pretty t |}.

Definition no_reply {A} : result A := Raise (Exception "no reply").

#[global] Instance env : Environment t := {|
  json_load _ w := (credentials w, w);
  rest_client _ _ w := (Ok tt, w);
  client_get_portfolios w := (portfolios w, w);
  client_get_portfolio_breakdown _ w := (breakdown w, w);
  client_get_product _ w :=
    (hd no_reply (products w),
     {| credentials := credentials w; portfolios := portfolios w;
        breakdown := breakdown w; products := tl (products w);
        orders := orders w; clock := clock w; keyboard := keyboard w |});
  client_create_order _ w :=
    (hd no_reply (orders w),
     {| credentials := credentials w; portfolios := portfolios w;
        breakdown := breakdown w; products := products w;
        orders := tl (orders w); clock := clock w; keyboard := keyboard w |});
  datetime_now w :=
    (stamp (clock w),
     {| credentials := credentials w; portfolios := portfolios w;
        breakdown := breakdown w; products := products w;
        orders := orders w; clock := clock w + 1; keyboard := keyboard w |});
  read_line w :=
    (hd "" (keyboard w),
     {| credentials := credentials w; portfolios := portfolios w;
        breakdown := breakdown w; products := products w;
        orders := orders w; clock := clock w; keyboard := tl (keyboard w) |});
  float_str x := PyFloat.format_fixed x 8;
  float_sum xs := foldl PyFloat.add (PyFloat.of_int 0) xs
|}.

(** The float nearest to [n / d]. *)
Definition dec (n d : Z) : float :=
  match PyFloat.int_truediv n d with
  | Ok x => x
  | Raise _ => S754_nan
  end.

Definition position (symbol : string) (quantity value : float) : SpotPosition :=
  {| asset := symbol; account_uuid := "acct-" +:+ symbol;
     total_balance_crypto := Some quantity; total_balance_fiat := Some value |}.

(** An account holding 0.01 BTC worth $650, 500 USDC and 1000 DOGE worth
    eight cents; every order is accepted. *)
Definition account (lines : list string) : t :=
  {| credentials := Ok (list_to_map [("name", "key"); ("privateKey", "secret")]);
     portfolios := Ok [ {| uuid := "p1" |} ];
     breakdown := Ok [ position "BTC" (dec 1 100) (dec 650 1);
                       position "USDC" (dec 500 1) (dec 500 1);
                       position "DOGE" (dec 1000 1) (dec 8 100) ];
     products := [];
     orders := [ Ok {| order_id := Some (VStr "ord-1"); id := None |} ];
     clock := 1700000000;
     keyboard := lines |}.

Definition start (w : t) : State t := {| world := w; trace := [] |}.

Definition bot (threshold : float) : CoinbaseLiquidationBot :=
  {| api_key_path := "cdp_api_key.json"; min_threshold := threshold |}.

Definition args (live_mode : bool) : Args :=
  {| live := live_mode; arg_min_threshold := dec 1 10; api_key := "cdp_api_key.json" |}.

Definition holding (symbol : string) (quantity value : float) : Balance.t :=
  {| Balance.account_id := "acct-" +:+ symbol; Balance.currency := symbol;
     Balance.balance := quantity; Balance.currency_code := symbol;
     Balance.usd_value := Some value |}.

Definition sale (symbol : string) (quantity value : float) : Trade.t :=
  {| Trade.currency := symbol; Trade.amount := quantity;
     Trade.price_per_unit := PyFloat.div value quantity;
     Trade.usd_value := value; Trade.account_id := "acct-" +:+ symbol |}.

(** The float Python writes [0.3]. *)
Definition three_tenths : float := S754_finite false 5404319552844595 (-54).

Definition btc : Trade.t := sale "BTC" (dec 1 100) (dec 650 1).
Definition xyz : Trade.t := sale "XYZ" (dec 5 1) (dec 20 1).

Definition usdc_holding : Holding :=
  {| asset_symbol := "USDC"; quantity := dec 500 1; valuation := dec 500 1;
     holding_account := "acct-USDC" |}.

(** The same account, where the first order is refused for want of a
    trading pair and the next one is accepted. *)
Definition refusing : t :=
  {| credentials := credentials (account []);
     portfolios := portfolios (account []);
     breakdown := breakdown (account []);
     products := [];
     orders := [ Raise (Exception "Invalid product_id: XYZ-USD");
                 Ok {| order_id := Some (VStr "ord-2"); id := None |} ];
     clock := 1700000000;
     keyboard := [] |}.

(** The same account, where the first price lookup is throttled and the
    second one answers. *)
Definition throttled : t :=
  {| credentials := credentials (account []);
     portfolios := portfolios (account []);
     breakdown := breakdown (account []);
     products := [ Raise (HTTPError 429 "Too Many Requests");
                   Ok {| price := Some (dec 2 1) |} ];
     orders := [];
     clock := 1700000000;
     keyboard := [] |}.

End Sim.


(** ** The account listing

    The second way to read balances: [get_accounts],
    [process_accounts_for_balances] and [get_account_balances].  The
    balances it builds have no ['usd_value'], so the plan builder prices
    them itself. *)

(** An account of the vendor's listing.  [available_balance] is a
    dictionary; its values follow the convention of the numeric attributes
    above ([Some x] when [float(...)] gives [x], [None] when it raises). *)
Module Account.
Record t := mk {
  uuid : string;
  currency : string;
  available_balance : gmap string (option float)
}.
End Account.

(** A client that also answers [get_accounts()] with [response.accounts]. *)
Class AccountsClient (W : Type) := {
  client_get_accounts : W -> result (list Account.t) * W
}.

Section Accounts.

Context {W : Type} `{Environment W} `{AccountsClient W}.

(** Both [except] branches return the empty list.  The trace has no event
    for this call. *)
Definition get_accounts : M W (list Account.t) :=
  fun s => let '(response, w) := client_get_accounts (world s) in
           (match response with
            | Ok accounts => accounts
            | Raise _ => []
            end, {| world := w; trace := trace s |}).

(** [float(account.available_balance.get('value', 0))]. *)
Definition available_value (account : Account.t) : result float :=
  match Account.available_balance account !! "value" with
  | Some v => to_float v
  | None => Ok (PyFloat.of_int 0)
  end.

(** The body of the loop of [process_accounts_for_balances]. *)
Definition balance_of_account (account : Account.t) : option Balance.t :=
  match available_value account with
  | Raise _ => None
  | Ok balance_value =>
      if PyFloat.gt balance_value PyFloat.zero
      then Some {| Balance.account_id := Account.uuid account;
                   Balance.currency := Account.currency account;
                   Balance.balance := balance_value;
                   Balance.currency_code := Account.currency account;
                   Balance.usd_value := None |}
      else None
  end.

Definition process_accounts_for_balances (accounts : list Account.t)
  : list Balance.t :=
  omap balance_of_account accounts.

Definition get_account_balances : M W (list Balance.t) :=
  let* accounts := get_accounts in
  ret (process_accounts_for_balances accounts).

End Accounts.

(** ** More vocabulary *)

(** The order requests and the product lookups of a list of events, in
    order. *)
Definition order_requests (evs : list Event) : list OrderRequest :=
  omap (fun ev => match ev with ECreateOrder r => Some r | _ => None end) evs.

Definition lookups (evs : list Event) : list string :=
  omap (fun ev => match ev with EGetProduct pid => Some pid | _ => None end) evs.

Definition reports (evs : list Event) : list (string * Rows) :=
  omap (fun ev => match ev with EWriteFile f rows => Some (f, rows) | _ => None end) evs.

(** Reading the credentials. *)
Definition credential_event (ev : Event) : Prop :=
  match ev with
  | EJsonLoad _ | ERESTClient _ _ => True
  | _ => False
  end.

(** What the executor and the report writer do: read the time, submit an
    order, write the file. *)
Definition execution_event (ev : Event) : Prop :=
  match ev with
  | ENow | ECreateOrder _ | EWriteFile _ _ => True
  | _ => False
  end.

(** What a trial execution does: read the time, write the file. *)
Definition trial_event (ev : Event) : Prop :=
  match ev with
  | ENow | EWriteFile _ _ => True
  | _ => False
  end.

(** What [main] shows the user. *)
Definition print_event (ev : Event) : Prop :=
  match ev with
  | EPrint _ => True
  | _ => False
  end.

(** ** More scripted worlds *)

Module Scenario.

(** A key file without the private key. *)
Definition no_private_key : Sim.t :=
  {| Sim.credentials := Ok (list_to_map [("name", "key")]);
     Sim.portfolios := Sim.portfolios (Sim.account []);
     Sim.breakdown := Sim.breakdown (Sim.account []);
     Sim.products := []; Sim.orders := [];
     Sim.clock := 1700000000; Sim.keyboard := [] |}.

(** The vendor refuses to list the portfolios. *)
Definition no_portfolios : Sim.t :=
  {| Sim.credentials := Sim.credentials (Sim.account []);
     Sim.portfolios := Raise (HTTPError 500 "Internal Server Error");
     Sim.breakdown := Sim.breakdown (Sim.account []);
     Sim.products := []; Sim.orders := [];
     Sim.clock := 1700000000; Sim.keyboard := [] |}.

(** A breakdown whose second position has a quantity that is not a
    number. *)
Definition garbled : SpotPosition :=
  {| asset := "ETH"; account_uuid := "acct-ETH";
     total_balance_crypto := None; total_balance_fiat := Some (Sim.dec 100 1) |}.

Definition with_garbled_position : Sim.t :=
  {| Sim.credentials := Sim.credentials (Sim.account []);
     Sim.portfolios := Sim.portfolios (Sim.account []);
     Sim.breakdown :=
       Ok ([Sim.position "BTC" (Sim.dec 1 100) (Sim.dec 650 1)]
             ++ garbled :: [Sim.position "DOGE" (Sim.dec 1000 1) (Sim.dec 8 100)]);
     Sim.products := []; Sim.orders := [];
     Sim.clock := 1700000000; Sim.keyboard := [] |}.

(** The vendor does not know the product. *)
Definition unknown_product : Sim.t :=
  {| Sim.credentials := Sim.credentials (Sim.account []);
     Sim.portfolios := Sim.portfolios (Sim.account []);
     Sim.breakdown := Sim.breakdown (Sim.account []);
     Sim.products := [ Raise (HTTPError 404 "Not Found") ]; Sim.orders := [];
     Sim.clock := 1700000000; Sim.keyboard := [] |}.

(** The vendor quotes two dollars. *)
Definition quoted : Sim.t :=
  {| Sim.credentials := Sim.credentials (Sim.account []);
     Sim.portfolios := Sim.portfolios (Sim.account []);
     Sim.breakdown := Sim.breakdown (Sim.account []);
     Sim.products := [ Ok {| price := Some (Sim.dec 2 1) |} ]; Sim.orders := [];
     Sim.clock := 1700000000; Sim.keyboard := [] |}.

(** A trade of an infinite quantity. *)
Definition boundless : Trade.t :=
  {| Trade.currency := "BTC"; Trade.amount := S754_infinity false;
     Trade.price_per_unit := Sim.dec 1 1; Trade.usd_value := S754_infinity false;
     Trade.account_id := "acct-BTC" |}.

(** An entry without a status. *)
Definition statusless : ExecutedTrade := {[ "currency" := VStr "BTC" ]}.

(** A listing of three accounts: 5 ABC, an account without a value, and
    USDC. *)
Definition listing : list Account.t :=
  [ {| Account.uuid := "a1"; Account.currency := "ABC";
       Account.available_balance := {[ "value" := Some (Sim.dec 5 1) ]} |};
    {| Account.uuid := "a2"; Account.currency := "ETH";
       Account.available_balance := ∅ |};
    {| Account.uuid := "a3"; Account.currency := "USDC";
       Account.available_balance := {[ "value" := Some (Sim.dec 500 1) ]} |} ].

#[global] Instance accounts : AccountsClient Sim.t :=
  {| client_get_accounts w := (Ok listing, w) |}.

End Scenario.

(** * Properties *)

(** ** The order on floats *)

Section FloatOrder.

Lemma compare_cont_Eq (a b : positive) :
  PosDef.Pos.compare_cont Eq a b = (a ?= b)%positive.
Proof. reflexivity. Qed.

(** Swapping the arguments of a comparison reverses its answer. *)
Lemma SFcompare_swap (x y : float) :
  SFcompare y x = CompOpp <$> SFcompare x y.
Proof.
  destruct x as [[]|[]| |[] mx ex], y as [[]|[]| |[] my ey]; simpl; try reflexivity;
    rewrite !compare_cont_Eq, (Z.compare_antisym ex ey), (Pos.compare_antisym mx my);
    destruct (ex ?= ey); simpl; try reflexivity;
    now rewrite CompOpp_involutive.
Qed.

(** A value strictly below another is not at or above it. *)
Lemma lt_not_ge (x y : float) :
  PyFloat.lt x y = true -> PyFloat.ge x y = false.
Proof.
  unfold PyFloat.lt, PyFloat.ge, SFltb, SFleb.
  rewrite (SFcompare_swap x y).
  destruct (SFcompare x y) as [[]|]; simpl; congruence.
Qed.

Lemma ge_not_lt (x y : float) :
  PyFloat.ge x y = true -> PyFloat.lt x y = false.
Proof.
  intros Hge. destruct (PyFloat.lt x y) eqn:Hlt; [|reflexivity].
  apply lt_not_ge in Hlt. congruence.
Qed.

Local Ltac order_cases :=
  repeat match goal with
    | |- context [(?a ?= ?b)%Z] =>
        destruct (Z.compare_spec a b); simpl in *; try discriminate; try lia
    | |- context [PosDef.Pos.compare_cont Eq ?a ?b] =>
        rewrite (compare_cont_Eq a b);
        destruct (Pos.compare_spec a b); simpl in *; try discriminate; try lia
    | H : context [(?a ?= ?b)%Z] |- _ =>
        destruct (Z.compare_spec a b); simpl in *; try discriminate; try lia
    | H : context [PosDef.Pos.compare_cont Eq ?a ?b] |- _ =>
        rewrite (compare_cont_Eq a b) in H;
        destruct (Pos.compare_spec a b); simpl in *; try discriminate; try lia
    end.

(** [<=] on floats is transitive. *)
Lemma SFleb_trans (x y z : float) :
  SFleb x y = true -> SFleb y z = true -> SFleb x z = true.
Proof.
  unfold SFleb.
  destruct x as [[]|[]| |[] mx ex], y as [[]|[]| |[] my ey],
           z as [[]|[]| |[] mz ez];
    simpl; intros Hxy Hyz; try reflexivity; try discriminate;
    order_cases; try reflexivity; try discriminate.
Qed.

(** A threshold that a value meets is met for every lower threshold. *)
Lemma ge_lower_threshold (v t1 t2 : float) :
  PyFloat.le t1 t2 = true -> PyFloat.ge v t2 = true -> PyFloat.ge v t1 = true.
Proof. unfold PyFloat.le, PyFloat.ge. apply SFleb_trans. Qed.

End FloatOrder.

(** ** The order executor *)

Section Executor.

Context {W : Type} `{Environment W}.

Implicit Types (s : State W) (trade : Trade.t) (entry : ExecutedTrade).

Lemma trial_entry_fields trade d :
  trial_entry trade d !! "status" = Some (VStr "TRIAL")
  /\ trial_entry trade d !! "order_id" = Some (VStr "TRIAL_MODE")
  /\ recorded trade (trial_entry trade d).
Proof. repeat split; try reflexivity. exists "TRIAL". split; [reflexivity | set_solver]. Qed.

Lemma execute_liquidation_eq plan live s :
  execute_liquidation plan live s = execute_trades plan live [] s.
Proof. destruct plan; reflexivity. Qed.

(** The loop only appends to the list it is given. *)
Lemma execute_trades_acc plan live acc s :
  execute_trades plan live acc s
  = (acc ++ fst (execute_trades plan live [] s),
     snd (execute_trades plan live [] s)).
Proof.
  revert acc s. induction plan as [|trade rest IH]; intros acc s; simpl.
  - unfold ret; simpl. by rewrite app_nil_r.
  - unfold bind. destruct (execute_trade trade live s) as [entry s1].
    rewrite (IH (acc ++ [entry])), (IH ([] ++ [entry])); simpl.
    by rewrite <- app_assoc.
Qed.

Lemma execute_trades_cons trade rest live s :
  execute_trades (trade :: rest) live [] s
  = (fst (execute_trade trade live s)
       :: fst (execute_trades rest live [] (snd (execute_trade trade live s))),
     snd (execute_trades rest live [] (snd (execute_trade trade live s)))).
Proof.
  simpl. unfold bind. destruct (execute_trade trade live s) as [entry s1].
  by rewrite execute_trades_acc.
Qed.

Lemma execute_trades_app before after live s :
  execute_trades (before ++ after) live [] s
  = (fst (execute_trades before live [] s)
       ++ fst (execute_trades after live [] (snd (execute_trades before live [] s))),
     snd (execute_trades after live [] (snd (execute_trades before live [] s)))).
Proof.
  revert s. induction before as [|trade rest IH]; intros s.
  - simpl. by destruct (execute_trades after live [] s).
  - rewrite <- app_comm_cons, !execute_trades_cons, IH. reflexivity.
Qed.

Lemma execute_trade_trial trade s :
  execute_trade trade false s
  = (trial_entry trade (fst (datetime_now (world s))),
     {| world := snd (datetime_now (world s)); trace := trace s ++ [ENow] |}).
Proof.
  unfold execute_trade, bind, now, perform, ret.
  by destruct (datetime_now (world s)).
Qed.

(** C1, as the code has it: in trial mode [execute_liquidation] returns
    one entry per planned trade, in the order of the plan, each with
    status ['TRIAL'] and order id ['TRIAL_MODE'] and the trade's currency,
    amount and value; the only thing it asks of the world is the time,
    once per trade, so [create_order] is never called. *)
Theorem trial_mode_records_every_trade (plan : list Trade.t) s :
  let r := execute_liquidation plan false s in
  Forall2 (fun trade entry =>
             entry !! "status" = Some (VStr "TRIAL")
             /\ entry !! "order_id" = Some (VStr "TRIAL_MODE")
             /\ recorded trade entry) plan (fst r)
  /\ trace (snd r) = trace s ++ replicate (length plan) ENow.
Proof.
  simpl. rewrite execute_liquidation_eq.
  revert s. induction plan as [|trade rest IH]; intros s.
  - simpl. split; [constructor | by rewrite app_nil_r].
  - rewrite execute_trades_cons, execute_trade_trial; simpl.
    destruct (IH {| world := snd (datetime_now (world s));
                    trace := trace s ++ [ENow] |}) as [IH1 IH2].
    split.
    + constructor; [apply trial_entry_fields | exact IH1].
    + rewrite IH2; simpl. by rewrite <- app_assoc.
Qed.

(** Whatever happens to one order, the loop returns one entry for it. *)
Lemma execute_trade_recorded trade live s :
  recorded trade (fst (execute_trade trade live s)).
Proof.
  unfold execute_trade, bind, ret. destruct live.
  - destruct (submit_order trade s) as [[order_id|e] s1];
      destruct (now s1) as [d s2]; simpl;
      (repeat split; try reflexivity);
      [exists "EXECUTED" | exists "FAILED"]; (split; [reflexivity | set_solver]).
  - destruct (now s) as [d s1]; simpl. apply trial_entry_fields.
Qed.

Lemma execute_trades_recorded plan live s :
  Forall2 recorded plan (fst (execute_trades plan live [] s)).
Proof.
  revert s. induction plan as [|trade rest IH]; intros s.
  - constructor.
  - rewrite execute_trades_cons; simpl.
    constructor; [apply execute_trade_recorded | apply IH].
Qed.

(** The request [execute_liquidation] sends for a trade at time [d]. *)
Lemma submit_order_raises trade s d s1 size e s2 :
  now s = (d, s1) ->
  _format_amount_for_order (Trade.currency trade) (Trade.amount trade) = Ok size ->
  create_order
    {| product_id := Trade.currency trade +:+ "-USD";
       side := "SELL";
       client_order_id :=
         "liquidation_" +:+ Trade.currency trade +:+ "_" +:+ pretty (timestamp d);
       base_size := size |} s1 = (Raise e, s2) ->
  submit_order trade s = (Raise e, s2).
Proof.
  intros Hnow Hsize Hcreate. unfold submit_order, bind.
  rewrite Hnow, Hsize, Hcreate. reflexivity.
Qed.

(** C6: in live mode, when [create_order] raises for a trade, the entry
    appended for it has status ['FAILED'], no order id, and as error
    ["No USD trading pair available"] if the message of the exception
    contains ["Invalid product_id"] and the message itself otherwise;
    the trades before it keep their entries and the trades after it are
    executed in turn, one entry each. *)
Theorem failed_order_is_recorded_and_batch_continues
    (before after : list Trade.t) trade (done : list ExecutedTrade)
    (e : exception) (size : string) (d : datetime) s s1 s2 s3 :
  execute_trades before true [] s = (done, s1) ->
  now s1 = (d, s2) ->
  _format_amount_for_order (Trade.currency trade) (Trade.amount trade) = Ok size ->
  create_order
    {| product_id := Trade.currency trade +:+ "-USD";
       side := "SELL";
       client_order_id :=
         "liquidation_" +:+ Trade.currency trade +:+ "_" +:+ pretty (timestamp d);
       base_size := size |} s2 = (Raise e, s3) ->
  let error_msg :=
    if contains "Invalid product_id" (str_exception e)
    then "No USD trading pair available"
    else str_exception e in
  let entry := failed_entry trade error_msg (fst (now s3)) in
  let rest := execute_trades after true [] (snd (now s3)) in
  execute_liquidation (before ++ trade :: after) true s
  = (done ++ entry :: fst rest, snd rest)
  /\ entry !! "status" = Some (VStr "FAILED")
  /\ entry !! "error" = Some (VStr error_msg)
  /\ entry !! "order_id" = Some VNone
  /\ Forall2 recorded after (fst rest).
Proof.
  intros Hbefore Hnow Hsize Hcreate error_msg entry rest.
  split; [|repeat split; try reflexivity; apply execute_trades_recorded].
  rewrite execute_liquidation_eq, execute_trades_app, Hbefore; cbn [fst snd].
  rewrite execute_trades_cons.
  assert (execute_trade trade true s1 = (entry, snd (now s3))) as ->; [|reflexivity].
  unfold execute_trade, bind.
  rewrite (submit_order_raises _ _ _ _ _ _ _ Hnow Hsize Hcreate).
  unfold ret. by destruct (now s3).
Qed.

End Executor.

(** ** The plan builder *)

Section Planner.

Context {W : Type} `{Environment W}.

Implicit Types (s : State W) (b : Balance.t) (balances : list Balance.t).

(** The plan is the planning loop over the balances that pass the first
    filter, with the prices looked up for those that lack a valuation. *)
Lemma calculate_liquidation_plan_unfold self balances s :
  calculate_liquidation_plan self balances s
  = let currencies_to_liquidate := filter (fun b => to_liquidate b = true) balances in
    match Balance.currency_code <$>
            filter (fun b => Balance.usd_value b = None) currencies_to_liquidate with
    | [] => (omap (plan_entry self ∅) currencies_to_liquidate, s)
    | needing =>
        (omap (plan_entry self (fst (get_current_prices needing s)))
              currencies_to_liquidate,
         snd (get_current_prices needing s))
    end.
Proof.
  unfold calculate_liquidation_plan. cbv zeta.
  destruct (filter (fun b => to_liquidate b = true) balances) as [|b l]; [reflexivity|].
  destruct (Balance.currency_code <$> _) as [|c cs]; [reflexivity|].
  unfold bind, ret. by destruct (get_current_prices (c :: cs) s).
Qed.

(** The prices and the final state do not depend on the threshold. *)
Lemma calculate_liquidation_plan_shape path balances s :
  exists prices s', forall threshold,
    calculate_liquidation_plan
      {| api_key_path := path; min_threshold := threshold |} balances s
    = (omap (plan_entry {| api_key_path := path; min_threshold := threshold |} prices)
            (filter (fun b => to_liquidate b = true) balances), s').
Proof.
  destruct (Balance.currency_code <$>
              filter (fun b => Balance.usd_value b = None)
                     (filter (fun b => to_liquidate b = true) balances))
    as [|c cs] eqn:Hneed.
  - exists ∅, s. intros threshold.
    rewrite calculate_liquidation_plan_unfold. cbv zeta. by rewrite Hneed.
  - exists (fst (get_current_prices (c :: cs) s)), (snd (get_current_prices (c :: cs) s)).
    intros threshold.
    rewrite calculate_liquidation_plan_unfold. cbv zeta. by rewrite Hneed.
Qed.

Lemma plan_entry_currency self prices b o :
  plan_entry self prices b = Some o -> Trade.currency o = Balance.currency_code b.
Proof.
  unfold plan_entry. intros Ho.
  destruct (Balance.usd_value b); [|destruct (prices !! _)]; simpl in Ho;
    try discriminate;
    destruct (PyFloat.ge _ _); try discriminate; by inversion Ho.
Qed.

Lemma plan_entry_meets_threshold self prices b o :
  plan_entry self prices b = Some o ->
  PyFloat.ge (Trade.usd_value o) (min_threshold self) = true.
Proof.
  unfold plan_entry. intros Ho.
  destruct (Balance.usd_value b); [|destruct (prices !! _)]; simpl in Ho;
    try discriminate;
    destruct (PyFloat.ge _ _) eqn:Hge; try discriminate; by inversion Ho.
Qed.

Lemma to_liquidate_not_cash b :
  to_liquidate b = true -> Balance.currency_code b ∉ cash_equivalents.
Proof.
  unfold to_liquidate. intros Hb%andb_prop. destruct Hb as [Hb _].
  apply negb_true_iff, bool_decide_eq_false in Hb. exact Hb.
Qed.

(** C3: no entry of the plan has a cash-equivalent currency (USDC, USD),
    and the plan is the one computed from the balances with the
    cash-equivalent ones taken out: such a balance produces nothing. *)
Theorem cash_equivalents_never_planned self balances s :
  Forall (fun o => Trade.currency o ∉ cash_equivalents)
         (fst (calculate_liquidation_plan self balances s))
  /\ calculate_liquidation_plan self balances s
     = calculate_liquidation_plan self
         (filter (fun b => Balance.currency_code b ∉ cash_equivalents) balances) s.
Proof.
  split.
  - destruct self as [path threshold].
    destruct (calculate_liquidation_plan_shape path balances s) as (prices & s' & ->).
    apply Forall_forall. intros o (b & Hb & Ho)%list_elem_of_omap.
    apply list_elem_of_filter in Hb as [Hb _].
    rewrite (plan_entry_currency _ _ _ _ Ho). by apply to_liquidate_not_cash.
  - rewrite !calculate_liquidation_plan_unfold.
    replace (filter (fun b => to_liquidate b = true)
               (filter (fun b => Balance.currency_code b ∉ cash_equivalents) balances))
      with (filter (fun b => to_liquidate b = true) balances); [reflexivity|].
    rewrite list_filter_filter. apply list_filter_iff.
    intros b. split; [|tauto]. intros Hb. split; [exact Hb|].
    by apply to_liquidate_not_cash.
Qed.

(** A balance valued below the threshold gives no entry, whatever the
    prices. *)
Lemma plan_entry_below_threshold self prices b (v : float) :
  Balance.usd_value b = Some v ->
  PyFloat.lt v (min_threshold self) = true ->
  plan_entry self prices b = None.
Proof.
  intros Hv Hlt. unfold plan_entry. rewrite Hv. cbv zeta.
  by rewrite (lt_not_ge _ _ Hlt).
Qed.

(** A loop that appends in more cases appends a longer list. *)
Lemma omap_sublist {A B} (f g : A -> option B) (l : list A) :
  (forall x y, f x = Some y -> g x = Some y) ->
  omap f l `sublist_of` omap g l.
Proof.
  intros Hfg. induction l as [|x l IH]; simpl; [constructor|].
  destruct (f x) as [y|] eqn:Hf.
  - rewrite (Hfg _ _ Hf). by constructor.
  - destruct (g x); [by constructor | exact IH].
Qed.

Lemma plan_entry_lower_threshold path t1 t2 prices b o :
  PyFloat.le t1 t2 = true ->
  plan_entry {| api_key_path := path; min_threshold := t2 |} prices b = Some o ->
  plan_entry {| api_key_path := path; min_threshold := t1 |} prices b = Some o.
Proof.
  unfold plan_entry; simpl. intros Hle Ho.
  destruct (match Balance.usd_value b with Some _ => _ | None => _ end)
    as [[price_per_unit usd_value]|]; [|discriminate].
  destruct (PyFloat.ge usd_value t2) eqn:Hge; [|discriminate].
  by rewrite (ge_lower_threshold _ _ _ Hle Hge).
Qed.

(** C5: no entry of the plan has a value below the threshold, whatever
    the threshold; and for thresholds [t1 <= t2] the plan computed with
    [t2] is a sublist of the plan computed with [t1] from the same
    balances in the same world. *)
Theorem threshold_filters_and_is_monotone
    (path : string) (t1 t2 : float) balances s :
  PyFloat.le t1 t2 = true ->
  let plan t :=
    fst (calculate_liquidation_plan
           {| api_key_path := path; min_threshold := t |} balances s) in
  (forall t, Forall (fun o => PyFloat.lt (Trade.usd_value o) t = false) (plan t))
  /\ plan t2 `sublist_of` plan t1.
Proof.
  intros Hle plan. subst plan. cbv beta.
  destruct (calculate_liquidation_plan_shape path balances s) as (prices & s' & Hplan).
  split.
  - intros t. rewrite Hplan; simpl.
    apply Forall_forall. intros o (b & _ & Ho)%list_elem_of_omap.
    apply ge_not_lt. exact (plan_entry_meets_threshold _ _ _ _ Ho).
  - rewrite !Hplan; simpl. apply omap_sublist.
    intros b o. by apply plan_entry_lower_threshold.
Qed.

(** Every balance read from the portfolio is the balance of a holding. *)
Lemma balance_of_position_holding self (a : SpotPosition) b :
  balance_of_position self a = Some b ->
  exists h, b = balance_of_holding h
            /\ PyFloat.gt (quantity h) PyFloat.zero = true
            /\ PyFloat.ge (valuation h) (min_threshold self) = true.
Proof.
  unfold balance_of_position, to_float.
  destruct (total_balance_crypto a) as [balance_value|]; [|discriminate].
  destruct (total_balance_fiat a) as [usd_value|]; [|discriminate].
  destruct (PyFloat.gt balance_value PyFloat.zero) eqn:Hgt; [|discriminate].
  destruct (PyFloat.ge usd_value (min_threshold self)) eqn:Hge; [|discriminate].
  simpl. intros [= <-].
  by exists {| asset_symbol := asset a; quantity := balance_value;
               valuation := usd_value; holding_account := account_uuid a |}.
Qed.

(** The balances of holdings all carry a valuation: no price is looked
    up. *)
Lemma holdings_need_no_prices (P : Balance.t -> Prop) `{!forall b, Decision (P b)}
    (holdings : list Holding) :
  filter (fun b => Balance.usd_value b = None)
         (filter P (balance_of_holding <$> holdings)) = [].
Proof.
  induction holdings as [|h hs IH]; [reflexivity|].
  rewrite fmap_cons, filter_cons. destruct (decide (P _)); [|exact IH].
  rewrite filter_cons. destruct (decide _) as [Hnone|_]; [discriminate Hnone | exact IH].
Qed.

Lemma omap_cons {A B} (f : A -> option B) (x : A) (l : list A) :
  omap f (x :: l)
  = match f x with Some y => y :: omap f l | None => omap f l end.
Proof. reflexivity. Qed.

Lemma sellable_to_liquidate threshold (h : Holding) :
  sellable threshold h
  = to_liquidate (balance_of_holding h) && PyFloat.ge (valuation h) threshold.
Proof. reflexivity. Qed.

Lemma plan_entry_holding self (h : Holding) :
  to_liquidate (balance_of_holding h) = true ->
  plan_entry self ∅ (balance_of_holding h)
  = if PyFloat.ge (valuation h) (min_threshold self)
    then Some (order_of_holding h) else None.
Proof.
  unfold to_liquidate. intros [_ Hgt]%andb_prop. simpl in Hgt.
  unfold plan_entry; simpl. by rewrite Hgt, lookup_empty.
Qed.

Lemma plan_of_holdings self (holdings : list Holding) :
  omap (plan_entry self ∅)
       (filter (fun b => to_liquidate b = true) (balance_of_holding <$> holdings))
  = order_of_holding <$> filter (fun h => sellable (min_threshold self) h = true) holdings.
Proof.
  induction holdings as [|h hs IH]; [reflexivity|].
  rewrite fmap_cons, !filter_cons.
  destruct (decide (to_liquidate (balance_of_holding h) = true)) as [Hl|Hl];
    destruct (decide (sellable (min_threshold self) h = true)) as [Hs|Hs];
    rewrite sellable_to_liquidate in Hs.
  - apply andb_prop in Hs as [_ Hge].
    rewrite omap_cons, (plan_entry_holding _ _ Hl), Hge, IH. reflexivity.
  - rewrite Hl in Hs. simpl in Hs. apply not_true_is_false in Hs.
    rewrite omap_cons, (plan_entry_holding _ _ Hl), Hs. exact IH.
  - apply andb_prop in Hs as [Hl' _]. contradiction.
  - exact IH.
Qed.

End Planner.

(** ** Plan and execution together *)

Section Pipeline.

Context {W : Type} `{Environment W}.

(** C4, as the code has it: for holdings with their valuations, the plan
    has exactly one order for every holding that is not a cash equivalent
    (USDC, USD), has a positive quantity and a valuation at or above the
    threshold, in the order of the holdings, and nothing else; building
    it calls nothing.  Executing a plan, live or not, gives exactly one
    entry per order, in the order of the plan, with the order's currency,
    amount and value. *)
Theorem one_order_and_one_result_per_sellable_holding
    self (holdings : list Holding) (s : State W) :
  let plan :=
    order_of_holding <$>
      filter (fun h => sellable (min_threshold self) h = true) holdings in
  calculate_liquidation_plan self (balance_of_holding <$> holdings) s = (plan, s)
  /\ forall (any_plan : list Trade.t) (live_mode : bool) (s' : State W),
       Forall2 recorded any_plan (fst (execute_liquidation any_plan live_mode s')).
Proof.
  split.
  - rewrite calculate_liquidation_plan_unfold. cbv zeta.
    rewrite holdings_need_no_prices; simpl. by rewrite plan_of_holdings.
  - intros any_plan live_mode s'. rewrite execute_liquidation_eq.
    apply execute_trades_recorded.
Qed.

End Pipeline.

(** ** Price lookup *)

Section Prices.

Context {W : Type} `{Environment W}.

Implicit Types (s : State W) (prices : gmap string float).

Lemma fetch_price_trace product_id s :
  trace (snd (fetch_price product_id s)) = trace s ++ [EGetProduct product_id].
Proof.
  unfold fetch_price, bind, get_product, perform, ret.
  by destruct (client_get_product product_id (world s)).
Qed.

(** Only [get_product] raises [HTTPError] in a lookup: a price that does
    not convert raises something else. *)
Lemma fetch_price_http_error product_id s code message s' :
  fetch_price product_id s = (Raise (HTTPError code message), s') ->
  get_product product_id s = (Raise (HTTPError code message), s').
Proof.
  unfold fetch_price, bind, ret.
  destruct (get_product product_id s) as [[r|e] s1]; simpl; [|congruence].
  destruct (price r); simpl; congruence.
Qed.

(** C9: when the lookup of a currency is answered with HTTP 429, the
    loop sleeps 2 seconds (the pause between lookups is 0.1 seconds),
    looks the same product up once more and goes on with the remaining
    currencies: with the price if the second lookup gave one, with the
    dictionary unchanged if it raised.  For this currency the world sees
    exactly the two lookups with the sleep between them. *)
Theorem rate_limit_retries_once
    (currency : string) (rest : list string) prices (message : string) s s1 :
  fetch_price (currency +:+ "-USD") s = (Raise (HTTPError 429 message), s1) ->
  let retry := fetch_price (currency +:+ "-USD") (snd (sleep 2 s1)) in
  get_current_prices_loop (currency :: rest) prices s
  = get_current_prices_loop rest
      (match fst retry with
       | Ok price => <[currency := price]> prices
       | Raise _ => prices
       end) (snd retry)
  /\ trace (snd retry)
     = trace s ++ [EGetProduct (currency +:+ "-USD"); ESleep 2;
                   EGetProduct (currency +:+ "-USD")]
  /\ (1 # 10 < 2)%Q.
Proof.
  intros Hfirst retry. split; [|split; [|reflexivity]].
  - subst retry.
    change (get_current_prices_loop (currency :: rest) prices s)
      with (let '(first, s1) := fetch_price (currency +:+ "-USD") s in
            match first with
            | Ok price =>
                let* _ := sleep (1 # 10) in
                get_current_prices_loop rest (<[currency := price]> prices)
            | Raise (HTTPError status_code _) =>
                if status_code =? 429 then
                  let* _ := sleep 2 in
                  let* retry := fetch_price (currency +:+ "-USD") in
                  match retry with
                  | Ok price =>
                      get_current_prices_loop rest (<[currency := price]> prices)
                  | Raise _ => get_current_prices_loop rest prices
                  end
                else get_current_prices_loop rest prices
            | Raise (Exception _) => get_current_prices_loop rest prices
            end s1).
    rewrite Hfirst. cbn [Z.eqb Pos.eqb]. unfold bind.
    destruct (sleep 2 s1) as [[] s2]. cbn [snd].
    by destruct (fetch_price (currency +:+ "-USD") s2) as [[price|e] s3].
  - subst retry. rewrite fetch_price_trace. simpl.
    pose proof (fetch_price_trace (currency +:+ "-USD") s) as Ht.
    rewrite Hfirst in Ht. simpl in Ht. rewrite Ht, <- !app_assoc. reflexivity.
Qed.

End Prices.

(** ** The report writer *)

Section Report.

Context {W : Type} `{Environment W}.

Implicit Types (s : State W) (trade : ExecutedTrade).

Lemma fill_fields_lookup (fields : list string) trade (key : string) :
  foldl (fun trade field =>
           match trade !! field with
           | Some _ => trade
           | None => <[field := VNone]> trade
           end) trade fields !! key
  = match trade !! key with
    | Some v => Some v
    | None => if bool_decide (key ∈ fields) then Some VNone else None
    end.
Proof.
  revert trade. induction fields as [|field fields IH]; intros trade; simpl.
  - by destruct (trade !! key).
  - rewrite IH. destruct (trade !! field) eqn:Hfield.
    + destruct (trade !! key) eqn:Hkey; [reflexivity|].
      rewrite (bool_decide_ext (key ∈ field :: fields) (key ∈ fields)); [reflexivity|].
      rewrite elem_of_cons. split; [|tauto]. intros [->|?]; [congruence | done].
    + destruct (decide (field = key)) as [->|Hne].
      * rewrite lookup_insert_eq, Hfield.
        rewrite bool_decide_eq_true_2; [reflexivity | by left].
      * rewrite lookup_insert_ne by done.
        destruct (trade !! key); [reflexivity|].
        rewrite (bool_decide_ext (key ∈ field :: fields) (key ∈ fields)); [reflexivity|].
        rewrite elem_of_cons. split; [|tauto]. intros [->|?]; [congruence | done].
Qed.

Lemma fill_missing_fields_lookup trade (key : string) :
  fill_missing_fields trade !! key
  = match trade !! key with
    | Some v => Some v
    | None => if bool_decide (key ∈ fieldnames) then Some VNone else None
    end.
Proof. apply fill_fields_lookup. Qed.

(** Filling adds no key outside [fieldnames]. *)
Lemma fill_missing_fields_dom trade :
  dom trade ⊆ list_to_set fieldnames ->
  dom (fill_missing_fields trade) ⊆@{gset string} list_to_set fieldnames.
Proof.
  intros Hdom key [v Hv]%elem_of_dom.
  rewrite fill_missing_fields_lookup in Hv.
  destruct (trade !! key) eqn:Hkey.
  - apply Hdom, elem_of_dom. by rewrite Hkey.
  - case_bool_decide; [|discriminate]. by apply elem_of_list_to_set.
Qed.

Lemma dict_to_list_filled trade :
  dom trade ⊆ list_to_set fieldnames ->
  cell <$> ((fun key => default (VStr "") (fill_missing_fields trade !! key))
              <$> fieldnames)
  = row_of trade.
Proof.
  intros _. unfold row_of. rewrite <- list_fmap_compose.
  apply list_fmap_ext. intros i key Hkey%list_elem_of_lookup_2. simpl.
  rewrite fill_missing_fields_lookup.
  destruct (trade !! key); [reflexivity|].
  by rewrite bool_decide_eq_true_2.
Qed.

Lemma write_trades_rows (executed_trades : list ExecutedTrade) :
  Forall is_execution_result executed_trades ->
  write_trades executed_trades
  = (fill_missing_fields <$> executed_trades, row_of <$> executed_trades, None).
Proof.
  induction 1 as [|trade rest [Hdom _] _ IH]; [reflexivity|].
  simpl. unfold dict_to_list.
  rewrite bool_decide_eq_true_2 by by apply fill_missing_fields_dom.
  rewrite IH, dict_to_list_filled by done. reflexivity.
Qed.

(** The entries [execute_liquidation] builds are execution results. *)
Lemma execute_trade_is_execution_result (trade0 : Trade.t) (live_mode : bool) s :
  is_execution_result (fst (execute_trade trade0 live_mode s)).
Proof.
  unfold execute_trade, bind, ret. destruct live_mode.
  - destruct (submit_order trade0 s) as [[order_id|e] s1];
      destruct (now s1) as [d s2]; simpl;
      (split; [apply (bool_decide_unpack _); vm_compute; exact I
              | eexists; reflexivity]).
  - destruct (now s) as [d s1]; simpl.
    split; [apply (bool_decide_unpack _); vm_compute; exact I | eexists; reflexivity].
Qed.

Lemma any_trial_defined (executed_trades : list ExecutedTrade) :
  Forall is_execution_result executed_trades ->
  exists trial, any_trial executed_trades = Ok trial.
Proof.
  induction 1 as [|trade rest [_ [status Hstatus]] _ [trial IH]]; simpl.
  - by exists false.
  - rewrite Hstatus. destruct (equals_str status "TRIAL"); eauto.
Qed.

(** The name the report gets. *)
Lemma report_filename (executed_trades : list ExecutedTrade) (filename : option string) s :
  Forall is_execution_result executed_trades ->
  exists name s1,
    (match filename with
     | None | Some "" => default_filename executed_trades
     | Some f => ret (Ok f)
     end) s = (Ok name, s1).
Proof.
  intros Hres. destruct (any_trial_defined _ Hres) as [trial Htrial].
  destruct filename as [[|c f]|]; unfold default_filename, bind, ret;
    try destruct (now s) as [d s1]; rewrite ?Htrial; simpl; eauto.
Qed.

(** C8: for a non-empty list of execution results, the report is the
    header row followed by one row per result, in order; every row has
    the seven columns of [fieldnames]; and a key the result does not have,
    or has with [None], gives the empty text in its column. *)
Theorem report_rows_have_the_seven_columns
    (executed_trades : list ExecutedTrade) (filename : option string) s :
  executed_trades <> [] ->
  Forall is_execution_result executed_trades ->
  let r := generate_csv_report executed_trades filename s in
  let rows := fieldnames :: (row_of <$> executed_trades) in
  (exists name,
     fst r = (Ok name, fill_missing_fields <$> executed_trades)
     /\ last (trace (snd r)) = Some (EWriteFile name rows))
  /\ Forall (fun row => length row = 7%nat) rows
  /\ (forall trade (i : nat) (key : string),
        fieldnames !! i = Some key ->
        trade !! key = None \/ trade !! key = Some VNone ->
        row_of trade !! i = Some "").
Proof.
  intros Hne Hres r rows. split; [|split].
  - subst r rows. unfold generate_csv_report, bind.
    destruct (report_filename executed_trades filename s Hres) as (name & s1 & ->).
    exists name. destruct executed_trades as [|trade rest]; [done|].
    rewrite write_trades_rows by done.
    unfold emit, ret; simpl. split; [reflexivity | apply last_snoc].
  - subst rows. constructor; [reflexivity|].
    apply Forall_fmap, Forall_forall. intros trade _. reflexivity.
  - intros trade i key Hi Hkey. unfold row_of.
    rewrite list_lookup_fmap, Hi. simpl. by destruct Hkey as [-> | ->].
Qed.

(** C10: for an empty list the report file is still written, under the
    given name or the default one (whose mode is ["live"]), and the name
    is returned; the file has no row at all, not even the header. *)
Theorem empty_report_is_an_empty_file (filename : option string) s :
  let r := generate_csv_report [] filename s in
  let name :=
    match filename with
    | None | Some "" =>
        "coinbase_liquidation_report_live_" +:+ strftime (fst (now s)) +:+ ".csv"
    | Some f => f
    end in
  fst r = (Ok name, [])
  /\ last (trace (snd r)) = Some (EWriteFile name [])
  /\ forall f rows, EWriteFile f rows ∈ trace (snd r) ->
                    EWriteFile f rows ∈ trace s \/ rows = [].
Proof.
  unfold generate_csv_report, default_filename, bind, emit, ret, now, perform.
  destruct filename as [[|c f]|]; simpl;
    try destruct (datetime_now (world s)) as [d w]; simpl;
    (split; [reflexivity|]); (split; [apply last_snoc|]);
    intros f' rows; rewrite ?elem_of_app, !list_elem_of_singleton;
    intros Hin; decompose [or] Hin; try tauto; try discriminate;
    right; congruence.
Qed.

End Report.

(** ** Traces *)

Section Traces.

Context {W : Type} `{Environment W}.

Implicit Types (s : State W) (P : Event -> Prop).

Lemma appends_ret {A} P (a : A) : appends P (ret (W := W) a).
Proof. intros s. exists []. split; [by rewrite app_nil_r | constructor]. Qed.

Lemma appends_bind {A B} P (m : M W A) (k : A -> M W B) :
  appends P m -> (forall a, appends P (k a)) -> appends P (bind m k).
Proof.
  intros Hm Hk s. unfold bind.
  destruct (Hm s) as (evs1 & Ht1 & Hp1). destruct (m s) as [a s1]. simpl in Ht1.
  destruct (Hk a s1) as (evs2 & Ht2 & Hp2).
  exists (evs1 ++ evs2). split.
  - by rewrite Ht2, Ht1, app_assoc.
  - by apply Forall_app.
Qed.

Lemma appends_perform {A} P (ev : A -> Event) (op : W -> A * W) :
  (forall a, P (ev a)) -> appends P (perform ev op).
Proof.
  intros Hev s. unfold perform. destruct (op (world s)) as [a w].
  exists [ev a]. split; [reflexivity | by constructor].
Qed.

Lemma appends_emit P (ev : Event) : P ev -> appends P (emit (W := W) ev).
Proof. intros Hev s. exists [ev]. split; [reflexivity | by constructor]. Qed.

Lemma appends_impl {A} P Q (m : M W A) :
  (forall ev, P ev -> Q ev) -> appends P m -> appends Q m.
Proof.
  intros HPQ Hm s. destruct (Hm s) as (evs & Ht & Hp).
  exists evs. split; [exact Ht | by eapply Forall_impl].
Qed.

Lemma quiet_not_input ev : quiet ev -> not_input ev.
Proof. by destruct ev. Qed.

Local Ltac appends_step :=
  first [ apply appends_ret
        | apply appends_emit; exact I
        | apply appends_perform; intros; exact I
        | apply appends_bind; [|intros]
        | match goal with
          | |- appends _ (match ?x with _ => _ end) => destruct x
          | |- appends _ (if ?b then _ else _) => destruct b
          end ].

Local Ltac appends_with known := repeat first [ known | appends_step ].

Lemma load_api_credentials_quiet self : appends quiet (load_api_credentials self).
Proof. unfold load_api_credentials. appends_with fail. Qed.

Lemma get_portfolio_balances_quiet self : appends quiet (get_portfolio_balances self).
Proof.
  unfold get_portfolio_balances, get_portfolios, get_portfolio_breakdown.
  appends_with fail.
Qed.

Lemma fetch_price_quiet product_id : appends quiet (fetch_price product_id).
Proof. unfold fetch_price, get_product. appends_with fail. Qed.

Lemma get_current_prices_loop_quiet currencies prices :
  appends quiet (get_current_prices_loop currencies prices).
Proof.
  revert prices. induction currencies as [|currency rest IH]; intros prices; simpl.
  - appends_step.
  - unfold sleep. appends_with ltac:(first [apply IH | apply fetch_price_quiet]).
Qed.

Lemma calculate_liquidation_plan_quiet self balances :
  appends quiet (calculate_liquidation_plan self balances).
Proof.
  unfold calculate_liquidation_plan, get_current_prices. cbv zeta.
  appends_with ltac:(apply get_current_prices_loop_quiet).
Qed.

Lemma execute_trade_no_input trade live :
  appends not_input (execute_trade trade live).
Proof.
  unfold execute_trade, submit_order, now, create_order. appends_with fail.
Qed.

Lemma execute_trades_no_input plan live acc :
  appends not_input (execute_trades plan live acc).
Proof.
  revert acc. induction plan as [|trade rest IH]; intros acc; simpl.
  - appends_step.
  - appends_with ltac:(first [apply IH | apply execute_trade_no_input]).
Qed.

Lemma execute_liquidation_no_input plan live :
  appends not_input (execute_liquidation plan live).
Proof.
  destruct plan; [apply appends_ret | apply execute_trades_no_input].
Qed.

Lemma generate_csv_report_no_input executed_trades filename :
  appends not_input (generate_csv_report executed_trades filename).
Proof.
  unfold generate_csv_report, default_filename, now.
  appends_step.
  - destruct filename as [[|c f]|]; appends_with fail.
  - destruct a; [|appends_step].
    destruct executed_trades; [appends_with fail|].
    destruct (write_trades _) as [[trades rows] e]. appends_with fail.
Qed.

Lemma quiet_harmless ev : quiet ev -> ~ submits_or_writes ev.
Proof. destruct ev; simpl; tauto. Qed.

(** The prompt: two lines of warning, then one line read. *)
Lemma confirm_trace plan s :
  exists warning1 warning2 prompt answer,
    fst (confirm plan s) = bool_decide (answer = "CONFIRM")
    /\ trace (snd (confirm plan s))
       = trace s ++ [EPrint warning1; EPrint warning2; EInput prompt answer].
Proof.
  unfold confirm, bind, print, input, emit, perform, ret; simpl.
  destruct (read_line (world s)) as [answer w]; simpl.
  do 4 eexists. split; [reflexivity|]. by rewrite <- !app_assoc.
Qed.

(** A run either never prompts, or prompts once after quiet events only;
    after an answer other than the token it stops at once with [False]. *)
Lemma run_liquidation_trace self live_mode s :
  exists evs,
    trace (snd (run_liquidation self live_mode s)) = trace s ++ evs
    /\ (Forall not_input evs
        \/ exists before warning1 warning2 prompt answer after,
             evs = before ++ [EPrint warning1; EPrint warning2; EInput prompt answer]
                     ++ after
             /\ Forall quiet before
             /\ ((answer <> "CONFIRM" /\ after = []
                  /\ fst (run_liquidation self live_mode s) = Ok false)
                 \/ (answer = "CONFIRM" /\ Forall not_input after))).
Proof.
  unfold run_liquidation, bind.
  destruct (load_api_credentials_quiet self s) as (e1 & T1 & Q1).
  destruct (load_api_credentials self s) as [loaded s1]. simpl in T1.
  destruct loaded; cbn [negb].
  2: { exists e1. split; [done|]. left. eapply Forall_impl; eauto using quiet_not_input. }
  destruct (get_portfolio_balances_quiet self s1) as (e2 & T2 & Q2).
  destruct (get_portfolio_balances self s1) as [balances s2]. simpl in T2.
  assert (Forall quiet (e1 ++ e2)) as Q12 by by apply Forall_app.
  assert (trace s2 = trace s ++ (e1 ++ e2)) as T12
    by by rewrite T2, T1, <- !app_assoc.
  clear T1 T2 Q1 Q2.
  destruct balances as [|b bs].
  { exists (e1 ++ e2). split; [done|]. left.
    eapply Forall_impl; eauto using quiet_not_input. }
  destruct (calculate_liquidation_plan_quiet self (b :: bs) s2) as (e3 & T3 & Q3).
  destruct (calculate_liquidation_plan self (b :: bs) s2) as [plan s3]. simpl in T3.
  assert (Forall quiet ((e1 ++ e2) ++ e3)) as Q123 by by apply Forall_app.
  assert (trace s3 = trace s ++ ((e1 ++ e2) ++ e3)) as T123
    by by rewrite T3, T12, <- !app_assoc.
  clear T3 T12 Q3 Q12. set (before := (e1 ++ e2) ++ e3) in *.
  destruct plan as [|trade rest].
  { exists before. split; [done|]. left.
    eapply Forall_impl; eauto using quiet_not_input. }
  destruct live_mode.
  - destruct (confirm_trace (trade :: rest) s3)
      as (warning1 & warning2 & prompt & answer & Hgo & T4).
    destruct (confirm (trade :: rest) s3) as [go s4]. simpl in Hgo, T4. subst go.
    case_bool_decide as Hanswer; cbn [negb].
    + destruct (execute_liquidation_no_input (trade :: rest) true s4) as (e5 & T5 & N5).
      destruct (execute_liquidation (trade :: rest) true s4) as [executed s5].
      simpl in T5.
      destruct (generate_csv_report_no_input executed None s5) as (e6 & T6 & N6).
      destruct (generate_csv_report executed None s5) as [[csv trades] s6].
      simpl in T6.
      exists (before ++ [EPrint warning1; EPrint warning2; EInput prompt answer]
                ++ (e5 ++ e6)).
      split.
      * destruct csv; unfold ret; simpl;
          rewrite T6, T5, T4, T123, <- !app_assoc; reflexivity.
      * right. exists before, warning1, warning2, prompt, answer, (e5 ++ e6).
        split; [reflexivity|]. split; [done|]. right. split; [done|].
        by apply Forall_app.
    + exists (before ++ [EPrint warning1; EPrint warning2; EInput prompt answer] ++ []).
      split; [unfold ret; simpl; by rewrite T4, T123, <- !app_assoc|].
      right. exists before, warning1, warning2, prompt, answer, [].
      split; [reflexivity|]. split; [done|]. left. by repeat split.
  - unfold ret at 1. cbn [negb].
    destruct (execute_liquidation_no_input (trade :: rest) false s3) as (e5 & T5 & N5).
    destruct (execute_liquidation (trade :: rest) false s3) as [executed s5].
    simpl in T5.
    destruct (generate_csv_report_no_input executed None s5) as (e6 & T6 & N6).
    destruct (generate_csv_report executed None s5) as [[csv trades] s6].
    simpl in T6.
    exists (before ++ e5 ++ e6). split.
    + destruct csv; unfold ret; simpl; rewrite T6, T5, T123, <- !app_assoc; reflexivity.
    + left. apply Forall_app. split.
      * eapply Forall_impl; eauto using quiet_not_input.
      * by apply Forall_app.
Qed.

(** C7, as the code has it: when the user is prompted and answers
    anything other than [CONFIRM], no order is submitted and no report is
    written, [run_liquidation] returns [False], and [main] prints its
    failure line and exits with status 1, as it does when the credentials
    cannot be loaded. *)
Theorem cancelled_run_submits_nothing_and_exits_1
    (args : Args) s (evs : list Event) (prompt answer : string) :
  trace (snd (main args s)) = trace s ++ evs ->
  EInput prompt answer ∈ evs ->
  answer <> "CONFIRM" ->
  fst (main args s) = 1
  /\ Forall (fun ev => ~ submits_or_writes ev) evs
  /\ last evs = Some (EPrint (nl +:+ "[ERROR] Liquidation process failed!")).
Proof.
  unfold main, bind. intros Htrace Hin Hanswer.
  set (bot := {| api_key_path := api_key args;
                 min_threshold := arg_min_threshold args |}) in *.
  destruct (run_liquidation_trace bot (live args) s) as (evr & Tr & Hcases).
  destruct (run_liquidation bot (live args) s) as [success s1]. simpl in Tr, Hcases.
  assert (exists tail, evs = evr ++ tail /\ Forall not_input tail) as (tail & -> & Htail).
  { destruct success as [[]|e]; unfold print, emit, ret in Htrace; simpl in Htrace;
      rewrite Tr, <- ?app_assoc in Htrace; apply app_inv_head in Htrace; subst evs;
      [eexists; split; [reflexivity|repeat constructor]..
      | exists []; split; [by rewrite app_nil_r | constructor] ]. }
  destruct Hcases as [Hnone | (before & w1 & w2 & p & a & after & -> & Hquiet & Hcase)].
  { exfalso. assert (Forall not_input (evr ++ tail)) as Hall by by apply Forall_app.
    rewrite Forall_forall in Hall. exact (Hall _ Hin). }
  destruct Hcase as [(Ha & -> & ->) | (-> & Hafter)].
  - unfold print, emit, ret in *; simpl in *.
    rewrite Tr, <- !app_assoc in Htrace. apply app_inv_head in Htrace.
    simpl in Htrace. apply app_inv_head in Htrace.
    inversion Htrace; subst tail. split; [reflexivity|]. split.
    + apply Forall_app. split.
      * apply Forall_app. split; [|repeat constructor; by intros []].
        eapply Forall_impl; eauto using quiet_harmless.
      * repeat constructor. by intros [].
    + apply last_snoc.
  - exfalso.
    assert (Forall not_input before) as Hbefore
      by (eapply Forall_impl; eauto using quiet_not_input).
    rewrite !Forall_forall in *.
    apply elem_of_app in Hin as [Hin|Hin]; [|exact (Htail _ Hin)].
    apply elem_of_app in Hin as [Hin|Hin]; [exact (Hbefore _ Hin)|].
    cbn [app] in Hin.
    do 3 (apply elem_of_cons in Hin as [Hin|Hin]; [try discriminate Hin|]).
    + inversion Hin. congruence.
    + exact (Hafter _ Hin).
Qed.

End Traces.

(** ** Order sizes *)

(** C2 at a balance of 0.3 SOL.  The float the program holds for it is
    5404319552844595 / 2^54, a little below three tenths.  Multiplied by
    100 it rounds to exactly 30.0, so [math.floor] removes nothing, 30 / 100
    is the same float again, it prints as "0.30", and the order size is
    "0.3": as a decimal number, more than the quantity.  The comments of the
    function say the floor is there "to avoid insufficient funds". *)
Theorem format_amount_rounds_up_three_tenths :
  Sim.dec 3 10 = Sim.three_tenths
  /\ precision_of "SOL" = 2
  /\ PyFloat.mul Sim.three_tenths (PyFloat.of_int 100) = PyFloat.of_int 30
  /\ PyFloat.floor (PyFloat.of_int 30) = Ok 30
  /\ PyFloat.int_truediv 30 100 = Ok Sim.three_tenths
  /\ PyFloat.format_fixed Sim.three_tenths 2 = "0.30"
  /\ _format_amount_for_order "SOL" Sim.three_tenths = Ok "0.3"
  /\ decimal_value "0.3" = Some (3 # 10)%Q
  /\ PyFloat.to_Q Sim.three_tenths = Some (5404319552844595 # 18014398509481984)%Q
  /\ (5404319552844595 # 18014398509481984 < 3 # 10)%Q.
Proof. repeat split; vm_compute; reflexivity. Qed.

(** ** The scenarios of the specification, run in the scripted world *)

(** Holdings of BTC, USDC and DOGE with a threshold of ten cents: the plan
    is the BTC order alone. *)
Example plan_is_btc_alone :
  fst (calculate_liquidation_plan (Sim.bot (Sim.dec 1 10))
         [ Sim.holding "BTC" (Sim.dec 1 100) (Sim.dec 650 1);
           Sim.holding "USDC" (Sim.dec 500 1) (Sim.dec 500 1);
           Sim.holding "DOGE" (Sim.dec 1000 1) (Sim.dec 8 100) ]
         (Sim.start (Sim.account [])))
  = [ Sim.btc ].
Proof. vm_compute. reflexivity. Qed.

(** C1 as stated fails: the status of a simulated trade is ['TRIAL'], not
    ['SIMULATED']. *)
Lemma trial_status_is_not_SIMULATED :
  ~ Forall (fun entry : ExecutedTrade => entry !! "status" = Some (VStr "SIMULATED"))
      (fst (execute_liquidation [Sim.btc] false (Sim.start (Sim.account [])))).
Proof.
  rewrite execute_liquidation_eq, execute_trades_cons, execute_trade_trial.
  intros Hall. apply Forall_inv in Hall. discriminate Hall.
Qed.

(** C4 as stated fails: a holding of 500 USDC has a positive quantity and a
    valuation above the threshold, and the plan has no order for it. *)
Lemma usdc_holding_yields_no_order :
  PyFloat.gt (quantity Sim.usdc_holding) PyFloat.zero = true
  /\ PyFloat.ge (valuation Sim.usdc_holding) (Sim.dec 1 100) = true
  /\ fst (calculate_liquidation_plan (Sim.bot (Sim.dec 1 100))
            [balance_of_holding Sim.usdc_holding] (Sim.start (Sim.account [])))
     = [].
Proof. repeat split; vm_compute; reflexivity. Qed.

(** C7 as stated fails: after the answer ["no"] the exit status is 1, not
    0. *)
Lemma cancelled_run_exit_status_is_not_0 :
  let r := main (Sim.args true) (Sim.start (Sim.account ["no"])) in
  EInput "Type 'CONFIRM' to proceed: " "no" ∈ trace (snd r)
  /\ fst r <> 0.
Proof.
  split.
  - vm_compute. do 6 apply list_elem_of_further. apply list_elem_of_here.
  - vm_compute. discriminate.
Qed.

(** ** The theorems at work in the scripted world *)

(** Thresholds of one cent and one dollar over BTC worth $650 and DOGE
    worth eight cents. *)
Lemma threshold_filters_and_is_monotone_witness :
  PyFloat.le (Sim.dec 1 100) (Sim.dec 1 1) = true
  /\ fst (calculate_liquidation_plan (Sim.bot (Sim.dec 1 1))
            [ Sim.holding "BTC" (Sim.dec 1 100) (Sim.dec 650 1);
              Sim.holding "DOGE" (Sim.dec 1000 1) (Sim.dec 8 100) ]
            (Sim.start (Sim.account [])))
     `sublist_of`
     fst (calculate_liquidation_plan (Sim.bot (Sim.dec 1 100))
            [ Sim.holding "BTC" (Sim.dec 1 100) (Sim.dec 650 1);
              Sim.holding "DOGE" (Sim.dec 1000 1) (Sim.dec 8 100) ]
            (Sim.start (Sim.account []))).
Proof.
  assert (PyFloat.le (Sim.dec 1 100) (Sim.dec 1 1) = true) as Hle
    by (vm_compute; reflexivity).
  split; [exact Hle|].
  exact (proj2 (threshold_filters_and_is_monotone "cdp_api_key.json"
                  (Sim.dec 1 100) (Sim.dec 1 1)
                  [ Sim.holding "BTC" (Sim.dec 1 100) (Sim.dec 650 1);
                    Sim.holding "DOGE" (Sim.dec 1000 1) (Sim.dec 8 100) ]
                  (Sim.start (Sim.account [])) Hle)).
Defined.

(** The order for XYZ is refused with "Invalid product_id"; the order for
    BTC that follows it is still submitted. *)
Lemma failed_order_is_recorded_and_batch_continues_witness :
  let s := Sim.start Sim.refusing in
  let results := fst (execute_liquidation ([] ++ Sim.xyz :: [Sim.btc]) true s) in
  (results !! 0%nat) ≫= (fun entry => entry !! "error")
  = Some (VStr "No USD trading pair available")
  /\ length results = 2%nat.
Proof.
  intros s results. subst results.
  assert (execute_trades [] true [] s = ([], s)) as H1 by reflexivity.
  assert (now s = (fst (now s), snd (now s))) as H2 by reflexivity.
  assert (_format_amount_for_order (Trade.currency Sim.xyz) (Trade.amount Sim.xyz)
          = Ok "5") as H3 by (vm_compute; reflexivity).
  pose proof (failed_order_is_recorded_and_batch_continues
                [] [Sim.btc] Sim.xyz [] (Exception "Invalid product_id: XYZ-USD")
                "5" _ s s _
                (snd (create_order
                        {| product_id := "XYZ-USD"; side := "SELL";
                           client_order_id := "liquidation_XYZ_1700000000";
                           base_size := "5" |} (snd (now s))))
                H1 H2 H3) as Hclaim.
  destruct Hclaim as (Hrun & _ & Herror & _ & Hrest); [vm_compute; reflexivity|].
  rewrite Hrun. split; [exact Herror|].
  apply Forall2_length in Hrest. cbn [app fst length]. by rewrite <- Hrest.
Defined.

(** The user answers "no" to the prompt of a live run. *)
Lemma cancelled_run_submits_nothing_and_exits_1_witness :
  let r := main (Sim.args true) (Sim.start (Sim.account ["no"])) in
  fst r = 1 /\ Forall (fun ev => ~ submits_or_writes ev) (trace (snd r)).
Proof.
  intros r.
  assert (trace (snd r) = trace (Sim.start (Sim.account ["no"])) ++ trace (snd r))
    as Htrace by reflexivity.
  assert (EInput "Type 'CONFIRM' to proceed: " "no" ∈ trace (snd r)) as Hin.
  { vm_compute. do 6 apply list_elem_of_further. apply list_elem_of_here. }
  assert ("no" <> "CONFIRM") as Hno by discriminate.
  destruct (cancelled_run_submits_nothing_and_exits_1
              (Sim.args true) (Sim.start (Sim.account ["no"])) (trace (snd r))
              "Type 'CONFIRM' to proceed: " "no" Htrace Hin Hno)
    as (Hcode & Hquiet & _).
  split; assumption.
Defined.

(** The report of one simulated trade, under a given name. *)
Lemma report_rows_have_the_seven_columns_witness :
  let trades := [trial_entry Sim.btc (Sim.stamp 1700000000)] in
  last (trace (snd (generate_csv_report trades (Some "report.csv")
                      (Sim.start (Sim.account [])))))
  = Some (EWriteFile "report.csv"
            [ fieldnames;
              ["BTC"; "0.01000000"; "650.00000000"; "TRIAL_MODE"; "TRIAL";
               "T1700000000"; ""] ]).
Proof.
  intros trades.
  assert (trades <> []) as Hne by discriminate.
  assert (Forall is_execution_result trades) as Hres.
  { constructor; [|constructor]. split.
    - apply (bool_decide_unpack _). vm_compute. exact I.
    - eexists. reflexivity. }
  destruct (report_rows_have_the_seven_columns trades (Some "report.csv")
              (Sim.start (Sim.account [])) Hne Hres) as ((name & Hname & Hlast) & _).
  assert (name = "report.csv") as ->.
  { apply (f_equal fst) in Hname. vm_compute in Hname. by injection Hname. }
  rewrite Hlast. vm_compute. reflexivity.
Defined.

(** The lookup of ABC is throttled once and answered on the retry. *)
Lemma rate_limit_retries_once_witness :
  fst (get_current_prices ["ABC"] (Sim.start Sim.throttled)) !! "ABC"
  = Some (Sim.dec 2 1)
  /\ trace (snd (get_current_prices ["ABC"] (Sim.start Sim.throttled)))
     = [EGetProduct "ABC-USD"; ESleep 2; EGetProduct "ABC-USD"].
Proof.
  assert (fetch_price ("ABC" +:+ "-USD") (Sim.start Sim.throttled)
          = (Raise (HTTPError 429 "Too Many Requests"),
             snd (fetch_price "ABC-USD" (Sim.start Sim.throttled)))) as Hfirst
    by reflexivity.
  destruct (rate_limit_retries_once "ABC" [] ∅ "Too Many Requests"
              (Sim.start Sim.throttled) _ Hfirst) as (Hloop & Htrace & _).
  unfold get_current_prices. rewrite Hloop.
  split; [vm_compute; reflexivity | exact Htrace].
Defined.

(** * Further properties of the code *)

(** ** Whole runs *)

Ltac trace_step :=
  first [ apply appends_ret
        | apply appends_emit; exact I
        | apply appends_perform; intros; exact I
        | apply appends_bind; [|intros]
        | match goal with
          | |- appends _ (match ?x with _ => _ end) => destruct x
          | |- appends _ (if ?b then _ else _) => destruct b
          end ].

Ltac trace_with known := repeat first [ known | trace_step ].

Section Runs.

Context {W : Type} `{Environment W}.

Implicit Types (s : State W) (P : Event -> Prop).

Lemma load_api_credentials_events self :
  appends credential_event (load_api_credentials self).
Proof. unfold load_api_credentials. trace_with fail. Qed.

Lemma execute_trade_events trade live_mode :
  appends execution_event (execute_trade trade live_mode).
Proof. unfold execute_trade, submit_order, now, create_order. trace_with fail. Qed.

Lemma execute_trades_events plan live_mode acc :
  appends execution_event (execute_trades plan live_mode acc).
Proof.
  revert acc. induction plan as [|trade rest IH]; intros acc; simpl.
  - trace_step.
  - trace_with ltac:(first [apply IH | apply execute_trade_events]).
Qed.

Lemma execute_trades_trial_events plan acc :
  appends trial_event (execute_trades plan false acc).
Proof.
  revert acc. induction plan as [|trade rest IH]; intros acc; simpl.
  - trace_step.
  - unfold execute_trade, now. trace_with ltac:(apply IH).
Qed.

Lemma execute_liquidation_events plan live_mode :
  appends execution_event (execute_liquidation plan live_mode).
Proof. destruct plan; [apply appends_ret | apply execute_trades_events]. Qed.

Lemma execute_liquidation_trial_events plan :
  appends trial_event (execute_liquidation plan false).
Proof. destruct plan; [apply appends_ret | apply execute_trades_trial_events]. Qed.

Lemma generate_csv_report_events executed_trades filename :
  appends trial_event (generate_csv_report executed_trades filename).
Proof.
  unfold generate_csv_report, default_filename, now.
  trace_step.
  - destruct filename as [[|c f]|]; trace_with fail.
  - destruct a; [|trace_step].
    destruct executed_trades; [trace_with fail|].
    destruct (write_trades _) as [[trades rows] e]. trace_with fail.
Qed.

Lemma trial_is_execution ev : trial_event ev -> execution_event ev.
Proof. by destruct ev. Qed.

Lemma execute_trades_are_results plan live_mode s :
  Forall is_execution_result (fst (execute_trades plan live_mode [] s)).
Proof.
  revert s. induction plan as [|trade rest IH]; intros s.
  - constructor.
  - rewrite execute_trades_cons. simpl.
    constructor; [apply execute_trade_is_execution_result | apply IH].
Qed.

(** The report of what the executor returns is always written. *)
Lemma report_of_execution_succeeds plan live_mode s s' filename :
  exists name,
    fst (fst (generate_csv_report
                (fst (execute_liquidation plan live_mode s)) filename s'))
    = Ok name.
Proof.
  rewrite execute_liquidation_eq.
  pose proof (execute_trades_are_results plan live_mode s) as Hres.
  destruct (fst (execute_trades plan live_mode [] s)) as [|entry entries] eqn:Hr.
  - unfold generate_csv_report, default_filename, bind, ret, emit.
    destruct filename as [[|c f]|]; simpl;
      try destruct (now s') as [d s1]; simpl; eauto.
  - unfold generate_csv_report, bind.
    destruct (report_filename (entry :: entries) filename s' Hres) as (name & s1 & ->).
    rewrite write_trades_rows by done. simpl. eauto.
Qed.

(** The phases of a run: it stops early after quiet events; or it is a
    trial and goes on with clock readings and the report; or it is live,
    prompts, and goes on only after [CONFIRM]. *)
Lemma run_liquidation_phases self live_mode s :
  exists evs,
    trace (snd (run_liquidation self live_mode s)) = trace s ++ evs
    /\ ((Forall quiet evs
         /\ exists done, fst (run_liquidation self live_mode s) = Ok done)
        \/ (live_mode = false
            /\ fst (run_liquidation self live_mode s) = Ok true
            /\ exists before after,
                 evs = before ++ after
                 /\ Forall quiet before /\ Forall trial_event after)
        \/ (live_mode = true
            /\ exists before warning1 warning2 prompt answer after,
                 evs = before
                         ++ [EPrint warning1; EPrint warning2; EInput prompt answer]
                         ++ after
                 /\ Forall quiet before
                 /\ ((answer <> "CONFIRM" /\ after = []
                      /\ fst (run_liquidation self live_mode s) = Ok false)
                     \/ (answer = "CONFIRM" /\ Forall execution_event after
                         /\ fst (run_liquidation self live_mode s) = Ok true)))).
Proof.
  unfold run_liquidation, bind.
  destruct (load_api_credentials_quiet self s) as (e1 & T1 & Q1).
  destruct (load_api_credentials self s) as [loaded s1]. simpl in T1.
  destruct loaded; cbn [negb].
  2: { exists e1. split; [done|]. left. split; [done|]. by exists false. }
  destruct (get_portfolio_balances_quiet self s1) as (e2 & T2 & Q2).
  destruct (get_portfolio_balances self s1) as [balances s2]. simpl in T2.
  assert (Forall quiet (e1 ++ e2)) as Q12 by by apply Forall_app.
  assert (trace s2 = trace s ++ (e1 ++ e2)) as T12
    by by rewrite T2, T1, <- !app_assoc.
  clear T1 T2 Q1 Q2.
  destruct balances as [|b bs].
  { exists (e1 ++ e2). split; [done|]. left. split; [done|]. by exists true. }
  destruct (calculate_liquidation_plan_quiet self (b :: bs) s2) as (e3 & T3 & Q3).
  destruct (calculate_liquidation_plan self (b :: bs) s2) as [plan s3]. simpl in T3.
  assert (Forall quiet ((e1 ++ e2) ++ e3)) as Q123 by by apply Forall_app.
  assert (trace s3 = trace s ++ ((e1 ++ e2) ++ e3)) as T123
    by by rewrite T3, T12, <- !app_assoc.
  clear T3 T12 Q3 Q12. set (before := (e1 ++ e2) ++ e3) in *.
  destruct plan as [|trade rest].
  { exists before. split; [done|]. left. split; [done|]. by exists true. }
  destruct live_mode.
  - destruct (confirm_trace (trade :: rest) s3)
      as (warning1 & warning2 & prompt & answer & Hgo & T4).
    destruct (confirm (trade :: rest) s3) as [go s4]. simpl in Hgo, T4. subst go.
    case_bool_decide as Hanswer; cbn [negb].
    + destruct (execute_liquidation_events (trade :: rest) true s4) as (e5 & T5 & N5).
      destruct (report_of_execution_succeeds (trade :: rest) true s4
                  (snd (execute_liquidation (trade :: rest) true s4)) None)
        as (name & Hname).
      destruct (execute_liquidation (trade :: rest) true s4) as [executed s5].
      simpl in T5, Hname.
      destruct (generate_csv_report_events executed None s5) as (e6 & T6 & N6).
      destruct (generate_csv_report executed None s5) as [[csv trades] s6].
      simpl in T6, Hname. subst csv.
      exists (before ++ [EPrint warning1; EPrint warning2; EInput prompt answer]
                ++ (e5 ++ e6)).
      split; [unfold ret; simpl; by rewrite T6, T5, T4, T123, <- !app_assoc|].
      right. right. split; [done|].
      exists before, warning1, warning2, prompt, answer, (e5 ++ e6).
      split; [reflexivity|]. split; [done|]. right. split; [done|].
      split; [|reflexivity]. apply Forall_app. split; [done|].
      eapply Forall_impl; eauto using trial_is_execution.
    + exists (before ++ [EPrint warning1; EPrint warning2; EInput prompt answer] ++ []).
      split; [unfold ret; simpl; by rewrite T4, T123, <- !app_assoc|].
      right. right. split; [done|].
      exists before, warning1, warning2, prompt, answer, [].
      split; [reflexivity|]. split; [done|]. left. by repeat split.
  - change (ret true s3) with (true, s3). cbv beta iota zeta. cbn [negb].
    destruct (execute_liquidation_trial_events (trade :: rest) s3) as (e5 & T5 & N5).
    destruct (report_of_execution_succeeds (trade :: rest) false s3
                (snd (execute_liquidation (trade :: rest) false s3)) None)
      as (name & Hname).
    destruct (execute_liquidation (trade :: rest) false s3) as [executed s5].
    simpl in T5, Hname.
    destruct (generate_csv_report_events executed None s5) as (e6 & T6 & N6).
    destruct (generate_csv_report executed None s5) as [[csv trades] s6].
    simpl in T6, Hname. subst csv.
    exists (before ++ e5 ++ e6).
    split; [unfold ret; simpl; by rewrite T6, T5, T123, <- !app_assoc|].
    right. left. split; [done|]. split; [reflexivity|].
    exists before, (e5 ++ e6). split; [reflexivity|]. split; [done|].
    by apply Forall_app.
Qed.

(** What [main] adds to the run: its closing line, by the value returned. *)
Lemma main_after_run (args : Args) s :
  let bot := {| api_key_path := api_key args;
                min_threshold := arg_min_threshold args |} in
  let r := run_liquidation bot (live args) s in
  forall done, fst r = Ok done ->
    fst (main args s) = (if done then 0 else 1)
    /\ exists line, trace (snd (main args s)) = trace (snd r) ++ [EPrint line].
Proof.
  intros bot r done Hdone. subst r. unfold main, bind. fold bot.
  destruct (run_liquidation bot (live args) s) as [success s1]. simpl in Hdone.
  subst success. destruct done; unfold print, emit, ret; simpl; eauto.
Qed.

Lemma order_requests_app (evs1 evs2 : list Event) :
  order_requests (evs1 ++ evs2) = order_requests evs1 ++ order_requests evs2.
Proof. apply omap_app. Qed.

Lemma no_order_requests P (evs : list Event) :
  (forall ev, P ev -> match ev with ECreateOrder _ => False | _ => True end) ->
  Forall P evs -> order_requests evs = [].
Proof.
  intros HP. induction 1 as [|ev evs Hev _ IH]; [reflexivity|].
  unfold order_requests in *. rewrite omap_cons, IH.
  specialize (HP ev Hev). by destruct ev.
Qed.

Lemma quiet_no_order_requests (evs : list Event) :
  Forall quiet evs -> order_requests evs = [].
Proof. apply no_order_requests. by intros []. Qed.

Lemma trial_no_order_requests (evs : list Event) :
  Forall trial_event evs -> order_requests evs = [].
Proof. apply no_order_requests. by intros []. Qed.

(** A run ends with a verdict. *)
Lemma run_always_returns_a_verdict_aux (args : Args) s :
  exists done,
    fst (run_liquidation {| api_key_path := api_key args;
                            min_threshold := arg_min_threshold args |}
           (live args) s) = Ok done.
Proof.
  destruct (run_liquidation_phases
              {| api_key_path := api_key args;
                 min_threshold := arg_min_threshold args |} (live args) s)
    as (evs & _ & [[_ Hd] | [(_ & Hd & _) | (_ & b & w1 & w2 & p & a & after & _ & _ & Hd)]]);
    [exact Hd | eauto | destruct Hd as [(_ & _ & Hd) | (_ & _ & Hd)]; eauto].
Qed.


(** X2: a trial run (without [--live]) never asks for confirmation and
    never submits an order, whatever the account holds and whatever the
    vendor answers. *)
Theorem trial_run_never_prompts_nor_orders (args : Args) s (evs : list Event) :
  live args = false ->
  trace (snd (main args s)) = trace s ++ evs ->
  order_requests evs = [] /\ Forall not_input evs.
Proof.
  intros Hlive Htrace.
  set (bot := {| api_key_path := api_key args;
                 min_threshold := arg_min_threshold args |}).
  destruct (run_always_returns_a_verdict_aux args s) as [done Hdone].
  destruct (main_after_run args s done Hdone) as (_ & line & Hmain).
  destruct (run_liquidation_phases bot (live args) s) as (evr & Tr & Hcases).
  fold bot in Hmain. rewrite Hmain, Tr, <- app_assoc in Htrace.
  apply app_inv_head in Htrace. subst evs.
  rewrite order_requests_app, Forall_app.
  destruct Hcases as [[Hq _] | [(_ & _ & before & after & -> & Hq & Ht)
                               | (Hl & _)]]; [| |congruence].
  - rewrite (quiet_no_order_requests _ Hq). split; [reflexivity|].
    split; [|by repeat constructor].
    eapply Forall_impl; eauto using quiet_not_input.
  - rewrite order_requests_app, (quiet_no_order_requests _ Hq),
      (trial_no_order_requests _ Ht).
    split; [reflexivity|]. split; [|by repeat constructor].
    apply Forall_app. split.
    + eapply Forall_impl; eauto using quiet_not_input.
    + eapply Forall_impl; [exact Ht|]. by intros [].
Qed.

(** X3: an order is submitted only in a live run and only after the user
    has typed [CONFIRM]: in the events of a run that contain an order
    request, the answer [CONFIRM] to the prompt comes first, with no order
    request before it. *)
Theorem orders_need_confirmation (args : Args) s (evs : list Event) :
  trace (snd (main args s)) = trace s ++ evs ->
  order_requests evs <> [] ->
  live args = true
  /\ exists before prompt after,
       evs = before ++ EInput prompt "CONFIRM" :: after
       /\ order_requests before = [].
Proof.
  intros Htrace Horders.
  set (bot := {| api_key_path := api_key args;
                 min_threshold := arg_min_threshold args |}).
  destruct (run_always_returns_a_verdict_aux args s) as [done Hdone].
  destruct (main_after_run args s done Hdone) as (_ & line & Hmain).
  destruct (run_liquidation_phases bot (live args) s) as (evr & Tr & Hcases).
  fold bot in Hmain. rewrite Hmain, Tr, <- app_assoc in Htrace.
  apply app_inv_head in Htrace. subst evs.
  rewrite order_requests_app, app_nil_r in Horders.
  destruct Hcases as [[Hq _] | [(_ & _ & before & after & -> & Hq & Ht)
                               | (Hl & before & w1 & w2 & p & a & after
                                  & -> & Hq & Hcase)]].
  - by rewrite (quiet_no_order_requests _ Hq) in Horders.
  - by rewrite order_requests_app, (quiet_no_order_requests _ Hq),
      (trial_no_order_requests _ Ht) in Horders.
  - split; [exact Hl|].
    destruct Hcase as [(_ & -> & _) | (-> & _ & _)].
    + exfalso. apply Horders.
      by rewrite order_requests_app, (quiet_no_order_requests _ Hq).
    + exists (before ++ [EPrint w1; EPrint w2]), p, (after ++ [EPrint line]).
      split; [by rewrite <- !app_assoc|].
      by rewrite order_requests_app, (quiet_no_order_requests _ Hq).
Qed.

(** X4: when the credentials cannot be loaded the run stops there: the
    vendor is never asked anything, [main] prints its failure line and
    exits with status 1. *)
Theorem failed_startup_contacts_nobody (args : Args) s :
  fst (load_api_credentials
         {| api_key_path := api_key args;
            min_threshold := arg_min_threshold args |} s) = false ->
  fst (main args s) = 1
  /\ exists evs,
       trace (snd (main args s))
       = trace s ++ evs ++ [EPrint (nl +:+ "[ERROR] Liquidation process failed!")]
       /\ Forall credential_event evs.
Proof.
  intros Hload. unfold main, run_liquidation, bind.
  destruct (load_api_credentials_events
              {| api_key_path := api_key args;
                 min_threshold := arg_min_threshold args |} s) as (evs & Ht & Hc).
  destruct (load_api_credentials _ s) as [loaded s1]. simpl in Hload, Ht.
  subst loaded. unfold print, emit, ret; simpl.
  split; [reflexivity|]. exists evs. split; [by rewrite Ht, <- app_assoc | exact Hc].
Qed.

(** X5: when the portfolio shows no balance, or nothing in it is to be
    sold, the run ends well: [main] exits with status 0 after quiet
    events only, so nobody is prompted, nothing is ordered and no report
    is written. *)
Theorem nothing_to_do_is_success (args : Args) s :
  let bot := {| api_key_path := api_key args;
                min_threshold := arg_min_threshold args |} in
  let loading := load_api_credentials bot s in
  let reading := get_portfolio_balances bot (snd loading) in
  fst loading = true ->
  fst reading = []
  \/ fst (calculate_liquidation_plan bot (fst reading) (snd reading)) = [] ->
  fst (main args s) = 0
  /\ exists evs,
       trace (snd (main args s))
       = trace s ++ evs
           ++ [EPrint (nl +:+ "[SUCCESS] Liquidation process completed successfully!")]
       /\ Forall quiet evs.
Proof.
  intros bot loading reading Hload Hnothing. subst loading reading.
  unfold main, run_liquidation, bind. fold bot.
  destruct (load_api_credentials_quiet bot s) as (e1 & T1 & Q1).
  destruct (load_api_credentials bot s) as [loaded s1].
  simpl in Hload, Hnothing, T1. subst loaded. cbn [negb].
  destruct (get_portfolio_balances_quiet bot s1) as (e2 & T2 & Q2).
  destruct (get_portfolio_balances bot s1) as [balances s2].
  simpl in Hnothing, T2.
  destruct balances as [|b bs].
  { unfold print, emit, ret; simpl. split; [reflexivity|].
    exists (e1 ++ e2). split; [by rewrite T2, T1, <- !app_assoc | by apply Forall_app]. }
  destruct Hnothing as [Hnone | Hplan]; [discriminate|].
  destruct (calculate_liquidation_plan_quiet bot (b :: bs) s2) as (e3 & T3 & Q3).
  destruct (calculate_liquidation_plan bot (b :: bs) s2) as [plan s3].
  simpl in Hplan, T3. subst plan. unfold print, emit, ret; simpl.
  split; [reflexivity|].
  exists (e1 ++ e2 ++ e3). split; [by rewrite T3, T2, T1, <- !app_assoc|].
  by repeat (apply Forall_app; split).
Qed.

(** X6: unless the key file is read and has both ['name'] and
    ['privateKey'], [load_api_credentials] returns [False] and no client is
    built. *)
Theorem credentials_need_both_keys self s :
  (forall credentials,
     fst (json_load (api_key_path self) (world s)) = Ok credentials ->
     credentials !! "name" = None \/ credentials !! "privateKey" = None) ->
  fst (load_api_credentials self s) = false
  /\ trace (snd (load_api_credentials self s))
     = trace s ++ [EJsonLoad (api_key_path self)].
Proof.
  intros Hkeys. unfold load_api_credentials, bind, perform.
  destruct (json_load (api_key_path self) (world s)) as [[credentials|e] w];
    simpl in *; [|done].
  destruct (Hkeys credentials eq_refl) as [-> | Hk]; [done|].
  rewrite Hk. by destruct (credentials !! "name").
Qed.

End Runs.

(** ** Reading the balances *)

Section Balances.

Context {W : Type} `{Environment W}.

Implicit Types (s : State W).

(** X7: the balance reader fails closed.  It returns balances only when
    the portfolios are listed, there is at least one, and the breakdown of
    the first one is delivered; the balances are then read off that
    breakdown.  In every other case it returns the empty list. *)
Theorem balances_come_from_the_first_portfolio self s :
  fst (get_portfolio_balances self s) <> [] ->
  exists first others w1 positions w2,
    client_get_portfolios (world s) = (Ok (first :: others), w1)
    /\ client_get_portfolio_breakdown (uuid first) w1 = (Ok positions, w2)
    /\ fst (get_portfolio_balances self s) = omap (balance_of_position self) positions
    /\ trace (snd (get_portfolio_balances self s))
       = trace s ++ [EGetPortfolios; EGetPortfolioBreakdown (uuid first)].
Proof.
  unfold get_portfolio_balances, get_portfolios, get_portfolio_breakdown,
    bind, perform, ret.
  destruct (client_get_portfolios (world s)) as [[[|first others]|e] w1] eqn:Hp;
    simpl; try done.
  destruct (client_get_portfolio_breakdown (uuid first) w1)
    as [[positions|e] w2] eqn:Hb; simpl; try done.
  intros _. exists first, others, w1, positions, w2.
  repeat split; try done. by rewrite <- app_assoc.
Qed.

(** X8: every balance the reader returns has a positive quantity, carries
    a valuation at or above the threshold, has the same symbol under
    ['currency'] and ['currency_code'], and there are no more of them than
    positions in the answer. *)
Theorem portfolio_balances_are_positive_and_valued self s :
  Forall (fun b =>
            PyFloat.gt (Balance.balance b) PyFloat.zero = true
            /\ Balance.currency b = Balance.currency_code b
            /\ exists v, Balance.usd_value b = Some v
                         /\ PyFloat.ge v (min_threshold self) = true)
         (fst (get_portfolio_balances self s)).
Proof.
  unfold get_portfolio_balances, get_portfolios, get_portfolio_breakdown,
    bind, perform, ret.
  destruct (client_get_portfolios (world s)) as [[[|first others]|e] w1];
    simpl; try constructor.
  destruct (client_get_portfolio_breakdown (uuid first) w1) as [[positions|e] w2];
    simpl; try constructor.
  apply Forall_forall. intros b (a & _ & Hb)%list_elem_of_omap.
  destruct (balance_of_position_holding _ _ _ Hb) as (h & -> & Hgt & Hge).
  simpl. eauto.
Qed.

(** X9: a position whose quantity or valuation does not convert to a
    number is passed over, and the positions around it are read as if it
    were not there. *)
Theorem unreadable_position_is_skipped self s first others w1 w2
    (before after : list SpotPosition) (bad : SpotPosition) :
  client_get_portfolios (world s) = (Ok (first :: others), w1) ->
  client_get_portfolio_breakdown (uuid first) w1
  = (Ok (before ++ bad :: after), w2) ->
  total_balance_crypto bad = None \/ total_balance_fiat bad = None ->
  fst (get_portfolio_balances self s)
  = omap (balance_of_position self) before ++ omap (balance_of_position self) after.
Proof.
  intros Hp Hb Hbad.
  unfold get_portfolio_balances, get_portfolios, get_portfolio_breakdown,
    bind, perform, ret.
  rewrite Hp. simpl. rewrite Hb. simpl.
  rewrite omap_app, omap_cons.
  assert (balance_of_position self bad = None) as ->; [|reflexivity].
  unfold balance_of_position, to_float.
  destruct Hbad as [-> | ->]; [reflexivity|].
  by destruct (total_balance_crypto bad).
Qed.

End Balances.

(** ** More on price lookup *)

(** The keys of the price dictionary along the loop. *)
Lemma priced_keys_step (prices : gmap string float) (currency : string)
    (rest : list string) :
  (dom prices ∪ list_to_set rest ⊆@{gset string}
     dom prices ∪ list_to_set (currency :: rest))
  /\ forall price,
       dom (<[currency := price]> prices) ∪ list_to_set rest
       ⊆@{gset string} dom prices ∪ list_to_set (currency :: rest).
Proof.
  split; [|intros price; rewrite dom_insert];
    intros c; rewrite !elem_of_union, ?elem_of_singleton, !elem_of_list_to_set,
      elem_of_cons; tauto.
Qed.


Section MorePrices.

Context {W : Type} `{Environment W}.

Implicit Types (s : State W) (prices : gmap string float).

Lemma lookups_app (evs1 evs2 : list Event) :
  lookups (evs1 ++ evs2) = lookups evs1 ++ lookups evs2.
Proof. apply omap_app. Qed.

Lemma fetch_price_events product_id s :
  snd (fetch_price product_id s)
  = {| world := snd (client_get_product product_id (world s));
       trace := trace s ++ [EGetProduct product_id] |}.
Proof.
  unfold fetch_price, bind, get_product, perform, ret.
  by destruct (client_get_product product_id (world s)).
Qed.

(** One turn of the loop: the prices it goes on with, the state, and the
    events of the turn. *)
Lemma get_current_prices_turn currency rest prices s :
  exists prices' s' evs,
    get_current_prices_loop (currency :: rest) prices s
    = get_current_prices_loop rest prices' s'
    /\ trace s' = trace s ++ evs
    /\ (prices' = prices \/ exists price, prices' = <[currency := price]> prices)
    /\ (lookups evs = [currency +:+ "-USD"]
        \/ lookups evs = [currency +:+ "-USD"; currency +:+ "-USD"]).
Proof.
  change (get_current_prices_loop (currency :: rest) prices s)
    with (let '(first, s1) := fetch_price (currency +:+ "-USD") s in
          match first with
          | Ok price =>
              let* _ := sleep (1 # 10) in
              get_current_prices_loop rest (<[currency := price]> prices)
          | Raise (HTTPError status_code _) =>
              if status_code =? 429 then
                let* _ := sleep 2 in
                let* retry := fetch_price (currency +:+ "-USD") in
                match retry with
                | Ok price =>
                    get_current_prices_loop rest (<[currency := price]> prices)
                | Raise _ => get_current_prices_loop rest prices
                end
              else get_current_prices_loop rest prices
          | Raise (Exception _) => get_current_prices_loop rest prices
          end s1).
  pose proof (fetch_price_events (currency +:+ "-USD") s) as Hs1.
  destruct (fetch_price (currency +:+ "-USD") s) as [[price|[code msg|msg]] s1];
    simpl in Hs1; subst s1.
  - eexists _, _, [_; _]. split; [reflexivity|]. simpl.
    split; [by rewrite <- app_assoc|]. split; [right; eauto | by left].
  - destruct (code =? 429).
    + unfold bind, sleep, emit.
      match goal with
      | |- context [fetch_price ?p ?st] =>
          pose proof (fetch_price_events p st) as Hs2;
          destruct (fetch_price p st) as [[price|e] s2]
      end; simpl in Hs2; subst s2;
        (eexists _, _, [_; _; _]; split; [reflexivity|]; simpl;
         split; [by rewrite <- !app_assoc|]; split; [eauto | by right]).
    + eexists _, _, [_]. split; [reflexivity|]. simpl.
      split; [reflexivity|]. split; [by left | by left].
  - eexists _, _, [_]. split; [reflexivity|]. simpl.
    split; [reflexivity|]. split; [by left | by left].
Qed.

(** What the loop does to the prices and which products it looks up. *)
Lemma get_current_prices_loop_bounds currencies prices s :
  exists evs,
    trace (snd (get_current_prices_loop currencies prices s)) = trace s ++ evs
    /\ dom (fst (get_current_prices_loop currencies prices s))
       ⊆ dom prices ∪ list_to_set currencies
    /\ (forall c, c ∉ currencies ->
          fst (get_current_prices_loop currencies prices s) !! c = prices !! c)
    /\ Forall (fun pid => exists c, c ∈ currencies /\ pid = c +:+ "-USD") (lookups evs)
    /\ (length currencies <= length (lookups evs) <= 2 * length currencies)%nat.
Proof.
  revert prices s. induction currencies as [|currency rest IH]; intros prices s.
  - exists []. simpl. rewrite app_nil_r.
    repeat split; try done; try constructor. apply union_subseteq_l.
  - destruct (get_current_prices_turn currency rest prices s)
      as (prices' & s' & evs1 & -> & Ht & Hp & Hl).
    destruct (IH prices' s') as (evs2 & Ht2 & Hdom & Hframe & Hpid & Hlen).
    exists (evs1 ++ evs2).
    split; [by rewrite Ht2, Ht, app_assoc|].
    split; [|split; [|split]].
    + etrans; [exact Hdom|].
      destruct Hp as [-> | [price ->]]; apply priced_keys_step.
    + intros c Hc. apply not_elem_of_cons in Hc as [Hne Hc].
      rewrite (Hframe c Hc).
      destruct Hp as [-> | [price ->]]; [done|]. by rewrite lookup_insert_ne.
    + rewrite lookups_app. apply Forall_app. split.
      * destruct Hl as [-> | ->]; repeat constructor;
          exists currency; (split; [by left | reflexivity]).
      * eapply Forall_impl; [exact Hpid|].
        intros pid (c & Hc & ->). exists c. split; [by right | reflexivity].
    + rewrite lookups_app, length_app. simpl.
      destruct Hl as [-> | ->]; simpl; lia.
Qed.


(** X11: a lookup that fails with anything but HTTP 429 (another HTTP
    status, or any other exception, such as a price that is not a number)
    is not retried: the loop goes on at once, without sleeping, and the
    prices are left as they were. *)
Theorem other_failures_are_not_retried
    (currency : string) (rest : list string) prices (e : exception) s s1 :
  fetch_price (currency +:+ "-USD") s = (Raise e, s1) ->
  (forall message, e <> HTTPError 429 message) ->
  get_current_prices_loop (currency :: rest) prices s
  = get_current_prices_loop rest prices s1
  /\ trace s1 = trace s ++ [EGetProduct (currency +:+ "-USD")].
Proof.
  intros Hfirst Hnot. split.
  - change (get_current_prices_loop (currency :: rest) prices s)
      with (let '(first, s1) := fetch_price (currency +:+ "-USD") s in
            match first with
            | Ok price =>
                let* _ := sleep (1 # 10) in
                get_current_prices_loop rest (<[currency := price]> prices)
            | Raise (HTTPError status_code _) =>
                if status_code =? 429 then
                  let* _ := sleep 2 in
                  let* retry := fetch_price (currency +:+ "-USD") in
                  match retry with
                  | Ok price =>
                      get_current_prices_loop rest (<[currency := price]> prices)
                  | Raise _ => get_current_prices_loop rest prices
                  end
                else get_current_prices_loop rest prices
            | Raise (Exception _) => get_current_prices_loop rest prices
            end s1).
    rewrite Hfirst. destruct e as [code message|message]; [|reflexivity].
    destruct (Z.eqb_spec code 429) as [->|Hcode]; [|reflexivity].
    by destruct (Hnot message).
  - pose proof (fetch_price_events (currency +:+ "-USD") s) as Hs1.
    rewrite Hfirst in Hs1. simpl in Hs1. by subst s1.
Qed.

(** X12: a price that is delivered is stored under the currency, the loop
    pauses 0.1 seconds before the next lookup, and the price is in the
    dictionary returned unless the same currency is requested again. *)
Theorem delivered_price_is_returned
    (currency : string) (rest : list string) prices (price : float) s s1 :
  fetch_price (currency +:+ "-USD") s = (Ok price, s1) ->
  currency ∉ rest ->
  let r := get_current_prices_loop (currency :: rest) prices s in
  fst r !! currency = Some price
  /\ exists evs,
       trace (snd r)
       = trace s ++ [EGetProduct (currency +:+ "-USD"); ESleep (1 # 10)] ++ evs.
Proof.
  intros Hfirst Hfresh r. subst r.
  change (get_current_prices_loop (currency :: rest) prices s)
    with (let '(first, s1) := fetch_price (currency +:+ "-USD") s in
          match first with
          | Ok price =>
              let* _ := sleep (1 # 10) in
              get_current_prices_loop rest (<[currency := price]> prices)
          | Raise (HTTPError status_code _) =>
              if status_code =? 429 then
                let* _ := sleep 2 in
                let* retry := fetch_price (currency +:+ "-USD") in
                match retry with
                | Ok price =>
                    get_current_prices_loop rest (<[currency := price]> prices)
                | Raise _ => get_current_prices_loop rest prices
                end
              else get_current_prices_loop rest prices
          | Raise (Exception _) => get_current_prices_loop rest prices
          end s1).
  rewrite Hfirst. unfold bind, sleep, emit.
  pose proof (fetch_price_events (currency +:+ "-USD") s) as Hs1.
  rewrite Hfirst in Hs1. simpl in Hs1.
  match goal with
  | |- context [get_current_prices_loop rest ?p ?st] =>
      destruct (get_current_prices_loop_bounds rest p st)
        as (evs & Ht & _ & Hframe & _)
  end.
  split.
  - rewrite (Hframe currency Hfresh). apply lookup_insert_eq.
  - exists evs. rewrite Ht. simpl. rewrite Hs1. simpl. by rewrite <- !app_assoc.
Qed.

End MorePrices.

(** ** More on the plan builder *)

Section MorePlanner.

Context {W : Type} `{Environment W}.

Implicit Types (s : State W) (b : Balance.t) (balances : list Balance.t).

Lemma plan_entry_origin self prices b o :
  plan_entry self prices b = Some o ->
  Trade.currency o = Balance.currency_code b
  /\ Trade.amount o = Balance.balance b
  /\ Trade.account_id o = Balance.account_id b.
Proof.
  unfold plan_entry. intros Ho.
  destruct (Balance.usd_value b); [|destruct (prices !! _)]; simpl in Ho;
    try discriminate;
    destruct (PyFloat.ge _ _); try discriminate; by inversion Ho.
Qed.

Lemma omap_length_le {A B} (f : A -> option B) (l : list A) :
  (length (omap f l) <= length l)%nat.
Proof.
  induction l as [|x l IH]; [done|]. rewrite omap_cons.
  destruct (f x); simpl; lia.
Qed.

(** X13: every order of the plan sells a positive quantity and is made
    from one of the balances given: it has that balance's currency code,
    quantity and account.  The plan has no more orders than there are
    balances. *)
Theorem orders_come_from_positive_balances self balances s :
  let plan := fst (calculate_liquidation_plan self balances s) in
  Forall (fun o =>
            PyFloat.gt (Trade.amount o) PyFloat.zero = true
            /\ exists b, b ∈ balances
                         /\ Trade.currency o = Balance.currency_code b
                         /\ Trade.amount o = Balance.balance b
                         /\ Trade.account_id o = Balance.account_id b) plan
  /\ (length plan <= length balances)%nat.
Proof.
  destruct self as [path threshold]. cbv zeta.
  destruct (calculate_liquidation_plan_shape path balances s) as (prices & s' & ->).
  split.
  - apply Forall_forall. intros o (b & Hb & Ho)%list_elem_of_omap.
    apply list_elem_of_filter in Hb as [Hl Hb].
    destruct (plan_entry_origin _ _ _ _ Ho) as (Hc & Ha & Hid).
    split.
    + rewrite Ha. unfold to_liquidate in Hl. by apply andb_prop in Hl as [_ Hl].
    + by exists b.
  - simpl. etrans; [apply omap_length_le|]. apply length_filter.
Qed.

(** X14: when no balance is to be liquidated (each is a cash equivalent
    or has no positive quantity) the plan is empty and the vendor is not
    asked for anything. *)
Theorem nothing_to_liquidate_asks_nothing self balances s :
  Forall (fun b => to_liquidate b = false) balances ->
  calculate_liquidation_plan self balances s = ([], s).
Proof.
  intros Hnone. unfold calculate_liquidation_plan. cbv zeta.
  assert (filter (fun b => to_liquidate b = true) balances = []) as ->;
    [|reflexivity].
  induction Hnone as [|b bs Hb _ IH]; [reflexivity|].
  rewrite filter_cons. destruct (decide _) as [Hyes|_]; [congruence | exact IH].
Qed.

(** X15: the plan builder looks up a price only for a balance that is to
    be liquidated and has no valuation of its own: never for USDC or USD,
    never for a holding the portfolio has already valued. *)
Theorem prices_looked_up_only_when_needed self balances s :
  exists evs,
    trace (snd (calculate_liquidation_plan self balances s)) = trace s ++ evs
    /\ Forall (fun pid =>
                 exists b, b ∈ balances
                           /\ to_liquidate b = true
                           /\ Balance.usd_value b = None
                           /\ pid = Balance.currency_code b +:+ "-USD")
              (lookups evs).
Proof.
  rewrite calculate_liquidation_plan_unfold. cbv zeta.
  destruct (Balance.currency_code <$> _) as [|c cs] eqn:Hneed.
  - exists []. simpl. rewrite app_nil_r. split; [reflexivity | constructor].
  - destruct (get_current_prices_loop_bounds (c :: cs) ∅ s)
      as (evs & Ht & _ & _ & Hpid & _).
    exists evs. split; [exact Ht|].
    eapply Forall_impl; [exact Hpid|].
    intros pid (c' & Hc' & ->). rewrite <- Hneed in Hc'.
    apply list_elem_of_fmap in Hc' as (b & -> & Hb).
    apply list_elem_of_filter in Hb as [Hnone Hb].
    apply list_elem_of_filter in Hb as [Hl Hb].
    by exists b.
Qed.

End MorePlanner.


(** ** The account listing *)

Section AccountBalances.

Context {W : Type} `{Environment W} `{AccountsClient W}.

Implicit Types (s : State W).

Lemma balance_of_account_shape (account : Account.t) b :
  balance_of_account account = Some b ->
  PyFloat.gt (Balance.balance b) PyFloat.zero = true
  /\ Balance.usd_value b = None
  /\ Balance.currency b = Balance.currency_code b.
Proof.
  unfold balance_of_account.
  destruct (available_value account) as [balance_value|e]; [|discriminate].
  destruct (PyFloat.gt balance_value PyFloat.zero) eqn:Hgt; [|discriminate].
  by intros [= <-].
Qed.

(** X16: every balance read from the account listing has a positive
    quantity, no valuation, and the same symbol under ['currency'] and
    ['currency_code']; and an account whose balance has no ['value'] is
    passed over like an empty one, the accounts around it being read as if
    it were not there. *)
Theorem account_balances_are_positive_and_unvalued s :
  Forall (fun b =>
            PyFloat.gt (Balance.balance b) PyFloat.zero = true
            /\ Balance.usd_value b = None
            /\ Balance.currency b = Balance.currency_code b)
         (fst (get_account_balances s))
  /\ forall (before after : list Account.t) (account : Account.t),
       Account.available_balance account !! "value" = None ->
       process_accounts_for_balances (before ++ account :: after)
       = process_accounts_for_balances (before ++ after).
Proof.
  split.
  - unfold get_account_balances, get_accounts, bind, ret.
    destruct (client_get_accounts (world s)) as [response w]. simpl.
    apply Forall_forall. intros b (account & _ & Hb)%list_elem_of_omap.
    by apply (balance_of_account_shape account).
  - intros before after account Hvalue. unfold process_accounts_for_balances.
    rewrite !omap_app, omap_cons.
    unfold balance_of_account, available_value. by rewrite Hvalue.
Qed.


End AccountBalances.

(** ** More on the order executor *)

(** The precisions of the table, and the default. *)
Lemma precision_of_cases (currency : string) :
  precision_of currency ∈ [0; 2; 4; 6; 8].
Proof.
  assert (map_Forall (fun _ p => p ∈ [0; 2; 4; 6; 8]) precision_map) as Htable.
  { apply (bool_decide_unpack _). vm_compute. exact I. }
  unfold precision_of. destruct (precision_map !! currency) as [p|] eqn:Hp.
  - exact (Htable _ _ Hp).
  - simpl. do 3 apply list_elem_of_further. apply list_elem_of_here.
Qed.

Section MoreExecutor.

Context {W : Type} `{Environment W}.

Implicit Types (s : State W) (trade : Trade.t).

(** X18: when the vendor accepts an order the entry has status
    ['EXECUTED'], no ['error'] key, and as order id the [order_id] of the
    answer if it has one, else its [id] if it has one, else the client
    order id the bot made up. *)
Theorem accepted_order_is_recorded
    trade (d : datetime) (size : string) (order : Order) s s1 s2 :
  now s = (d, s1) ->
  _format_amount_for_order (Trade.currency trade) (Trade.amount trade) = Ok size ->
  create_order
    {| product_id := Trade.currency trade +:+ "-USD";
       side := "SELL";
       client_order_id :=
         "liquidation_" +:+ Trade.currency trade +:+ "_" +:+ pretty (timestamp d);
       base_size := size |} s1 = (Ok order, s2) ->
  let entry := fst (execute_trade trade true s) in
  entry !! "status" = Some (VStr "EXECUTED")
  /\ entry !! "error" = None
  /\ entry !! "order_id"
     = Some (match order_id order, id order with
             | Some v, _ => v
             | None, Some v => v
             | None, None =>
                 VStr ("liquidation_" +:+ Trade.currency trade +:+ "_"
                       +:+ pretty (timestamp d))
             end)
  /\ entry !! "timestamp" = Some (VStr (isoformat (fst (now s2)))).
Proof.
  intros Hnow Hsize Hcreate entry. subst entry.
  unfold execute_trade, submit_order, bind. cbv zeta.
  rewrite Hnow, Hsize, Hcreate. unfold ret.
  destruct (now s2) as [d2 s3]. simpl.
  by destruct (order_id order), (id order).
Qed.

(** The order requests of one turn of the loop. *)
Lemma execute_trade_requests trade s :
  exists evs,
    trace (snd (execute_trade trade true s)) = trace s ++ evs
    /\ (fun r => (product_id r, side r, base_size r)) <$> order_requests evs
       = match _format_amount_for_order (Trade.currency trade) (Trade.amount trade) with
         | Ok size => [(Trade.currency trade +:+ "-USD", "SELL", size)]
         | Raise _ => []
         end.
Proof.
  unfold execute_trade, submit_order, bind, now, create_order, perform, ret.
  cbv zeta.
  destruct (_format_amount_for_order (Trade.currency trade) (Trade.amount trade))
    as [size|e].
  - destruct (datetime_now (world s)) as [d w1]. simpl.
    destruct (client_create_order _ w1) as [[order|e] w2]; simpl;
      destruct (datetime_now w2) as [d2 w3]; simpl;
      (eexists [_; _; _]; split; [by rewrite <- !app_assoc | reflexivity]).
  - destruct (datetime_now (world s)) as [d w1]. simpl.
    destruct (datetime_now w1) as [d2 w3]. simpl.
    eexists [_; _]. split; [by rewrite <- !app_assoc | reflexivity].
Qed.

(** X19: a live execution sends exactly one request for every trade whose
    quantity can be formatted, in the order of the plan, and none for the
    others; each request is a [SELL] of the product [<currency>-USD] for
    the formatted quantity. *)
Theorem live_requests_follow_the_plan (plan : list Trade.t) s :
  exists evs,
    trace (snd (execute_liquidation plan true s)) = trace s ++ evs
    /\ (fun r => (product_id r, side r, base_size r)) <$> order_requests evs
       = omap (fun trade =>
                 match _format_amount_for_order (Trade.currency trade)
                         (Trade.amount trade) with
                 | Ok size => Some (Trade.currency trade +:+ "-USD", "SELL", size)
                 | Raise _ => None
                 end) plan.
Proof.
  rewrite execute_liquidation_eq.
  revert s. induction plan as [|trade rest IH]; intros s.
  - exists []. unfold ret. cbn [fst snd]. by rewrite app_nil_r.
  - rewrite execute_trades_cons. cbn [fst snd].
    destruct (execute_trade_requests trade s) as (evs1 & Ht1 & Hr1).
    destruct (IH (snd (execute_trade trade true s))) as (evs2 & Ht2 & Hr2).
    exists (evs1 ++ evs2). split; [by rewrite Ht2, Ht1, app_assoc|].
    unfold order_requests in *. rewrite omap_app, fmap_app, Hr1, Hr2, omap_cons.
    by destruct (_format_amount_for_order _ _).
Qed.

(** X20: a quantity that is infinite or not a number cannot be formatted,
    whatever the currency: the trade is recorded as ['FAILED'] with the
    message of the conversion error, and no order is submitted for it (the
    clock is read twice and that is all). *)
Theorem unformattable_quantity_is_not_submitted trade s :
  Trade.amount trade = S754_nan
  \/ (exists sign, Trade.amount trade = S754_infinity sign) ->
  let r := execute_trade trade true s in
  (exists message,
     _format_amount_for_order (Trade.currency trade) (Trade.amount trade)
     = Raise (Exception message)
     /\ fst r !! "error" = Some (VStr message))
  /\ fst r !! "status" = Some (VStr "FAILED")
  /\ trace (snd r) = trace s ++ [ENow; ENow].
Proof.
  intros Hamount r. subst r.
  assert (exists message,
            _format_amount_for_order (Trade.currency trade) (Trade.amount trade)
            = Raise (Exception message)
            /\ contains "Invalid product_id" message = false)
    as (message & Hraise & Hclass).
  { unfold _format_amount_for_order.
    pose proof (precision_of_cases (Trade.currency trade)) as Hp.
    destruct Hamount as [-> | [sign ->]];
      repeat (apply elem_of_cons in Hp as [-> | Hp];
              [try destruct sign; vm_compute; eauto|]);
      by apply elem_of_nil in Hp. }
  unfold execute_trade, submit_order, bind, now, perform, ret.
  cbv zeta. rewrite Hraise.
  destruct (datetime_now (world s)) as [d w1]. simpl.
  destruct (datetime_now w1) as [d2 w2]. simpl.
  unfold error_message. simpl. rewrite Hclass.
  split; [by exists message|]. split; [reflexivity | by rewrite <- app_assoc].
Qed.

End MoreExecutor.

(** ** More on order sizes *)

(** X21: for a currency sold in whole units (precision 0: XRP, ADA, ...)
    the order size is the exact floor of the quantity: the integer [n]
    printed satisfies [n <= quantity < n + 1]. *)
Theorem whole_unit_size_is_the_floor (currency : string) (amount : float) (q : Q) :
  precision_of currency = 0 ->
  PyFloat.to_Q amount = Some q ->
  exists n : Z,
    _format_amount_for_order currency amount = Ok (pretty n)
    /\ (inject_Z n <= q)%Q /\ (q < inject_Z (n + 1))%Q.
Proof.
  intros Hp Hq. unfold _format_amount_for_order. rewrite Hp.
  change (0 =? 0) with true. cbv iota.
  destruct amount as [sign|sign| |sign m e]; simpl in Hq; try discriminate.
  - injection Hq as <-. exists 0. split; [reflexivity|]. by split.
  - injection Hq as <-.
    set (z := if sign then Z.neg m else Z.pos m).
    exists (Z.shiftl z e). split; [reflexivity|].
    clearbody z.
    destruct e as [|k|k]; unfold Qle, Qlt, inject_Z; cbn [Qnum Qden].
    + rewrite Z.shiftl_0_r. change (2 ^ 0) with 1. lia.
    + rewrite Z.shiftl_mul_pow2 by lia. lia.
    + change (Z.shiftl z (Z.neg k)) with (Z.shiftr z (Z.pos k)).
      rewrite Z.shiftr_div_pow2 by lia. rewrite Pos2Z.inj_pow.
      assert (0 < 2 ^ Z.pos k) as Hd by (apply Z.pow_pos_nonneg; lia).
      pose proof (Z.div_mod z (2 ^ Z.pos k) ltac:(lia)) as Hdm.
      pose proof (Z.mod_pos_bound z (2 ^ Z.pos k) Hd) as Hm.
      nia.
Qed.

(** X22: a quantity of zero, of either sign, is formatted as "0" for
    every currency. *)
Theorem zero_quantity_is_formatted_as_0 (currency : string) (sign : bool) :
  _format_amount_for_order currency (S754_zero sign) = Ok "0".
Proof.
  unfold _format_amount_for_order.
  pose proof (precision_of_cases currency) as Hp.
  repeat (apply elem_of_cons in Hp as [-> | Hp];
          [destruct sign; vm_compute; reflexivity|]).
  by apply elem_of_nil in Hp.
Qed.

(** ** More on the report writer *)

Section MoreReport.

Context {W : Type} `{Environment W}.

Implicit Types (s : State W) (trade : ExecutedTrade).

(** X23: completing a trade for the report only adds keys: every value it
    had is kept, every field of the report is present afterwards, a second
    completion changes nothing, and the completed trade gives the same
    row, so reporting the same list again writes the same rows. *)
Theorem completing_a_trade_only_adds_keys trade :
  (forall (key : string) v, trade !! key = Some v ->
                            fill_missing_fields trade !! key = Some v)
  /\ (forall key : string, key ∈ fieldnames ->
                           is_Some (fill_missing_fields trade !! key))
  /\ fill_missing_fields (fill_missing_fields trade) = fill_missing_fields trade
  /\ row_of (fill_missing_fields trade) = row_of trade.
Proof.
  split; [|split; [|split]].
  - intros key v Hv. by rewrite fill_missing_fields_lookup, Hv.
  - intros key Hkey. rewrite fill_missing_fields_lookup.
    destruct (trade !! key); [eauto|]. rewrite bool_decide_eq_true_2 by done. eauto.
  - apply map_eq. intros key. rewrite !fill_missing_fields_lookup.
    destruct (trade !! key); [reflexivity|]. by case_bool_decide.
  - unfold row_of. apply list_fmap_ext.
    intros i key Hkey%list_elem_of_lookup_2. rewrite fill_missing_fields_lookup.
    destruct (trade !! key); [reflexivity|]. by rewrite bool_decide_eq_true_2.
Qed.

Lemma execute_trade_status (t : Trade.t) (live_mode : bool) s :
  exists status,
    fst (execute_trade t live_mode s) !! "status" = Some (VStr status)
    /\ String.eqb status "TRIAL" = negb live_mode.
Proof.
  unfold execute_trade, bind, ret. destruct live_mode.
  - destruct (submit_order t s) as [[order_id|e] s1];
      destruct (now s1) as [d s2]; simpl; eauto.
  - destruct (now s) as [d s1]; simpl. eauto.
Qed.

Lemma any_trial_of_execution (plan : list Trade.t) (live_mode : bool) s :
  plan <> [] ->
  any_trial (fst (execute_trades plan live_mode [] s)) = Ok (negb live_mode).
Proof.
  intros Hne. revert s.
  induction plan as [|t rest IH]; intros s; [done|].
  rewrite execute_trades_cons. cbn [fst any_trial].
  destruct (execute_trade_status t live_mode s) as (status & -> & Hstatus).
  cbn [equals_str]. rewrite Hstatus.
  destruct live_mode; cbn [negb]; [|reflexivity].
  destruct rest as [|t' rest']; [reflexivity|]. by apply IH.
Qed.

(** X24: the report of an execution that was given no file name is named
    after the mode: [..._trial_<time>.csv] for a trial execution of a
    non-empty plan, [..._live_<time>.csv] for a live one. *)
Theorem report_is_named_after_the_mode
    (plan : list Trade.t) (live_mode : bool) s s' :
  plan <> [] ->
  fst (fst (generate_csv_report (fst (execute_liquidation plan live_mode s)) None s'))
  = Ok ("coinbase_liquidation_report_"
        +:+ (if live_mode then "live" else "trial")
        +:+ "_" +:+ strftime (fst (now s')) +:+ ".csv").
Proof.
  intros Hne. rewrite execute_liquidation_eq.
  pose proof (execute_trades_are_results plan live_mode s) as Hres.
  pose proof (any_trial_of_execution plan live_mode s Hne) as Htrial.
  pose proof (execute_trades_recorded plan live_mode s) as Hlen%Forall2_length.
  destruct (fst (execute_trades plan live_mode [] s)) as [|entry entries].
  { destruct plan; [done | discriminate Hlen]. }
  unfold generate_csv_report, default_filename, bind, ret.
  destruct (now s') as [d s1]. rewrite Htrial. cbn [result_bind fst].
  rewrite write_trades_rows by done. unfold emit. cbn [fst].
  by destruct live_mode.
Qed.

(** X25: when no file name is given and the first trade has no
    ['status'], the look for the mode raises [KeyError] before the file is
    opened: the exception escapes, no report is written and the trades are
    left as they were. *)
Theorem missing_status_stops_the_report trade (rest : list ExecutedTrade) s :
  trade !! "status" = None ->
  let r := generate_csv_report (trade :: rest) None s in
  fst r = (Raise (Exception "'status'"), trade :: rest)
  /\ trace (snd r) = trace s ++ [ENow].
Proof.
  intros Hstatus r. subst r.
  unfold generate_csv_report, default_filename, bind, ret, now, perform.
  destruct (datetime_now (world s)) as [d w]. simpl. rewrite Hstatus. by simpl.
Qed.

End MoreReport.

(** ** The further theorems at work in the scripted world *)

(** A trial run over the account of BTC, USDC and DOGE. *)
Lemma trial_run_never_prompts_nor_orders_witness :
  let r := main (Sim.args false) (Sim.start (Sim.account [])) in
  order_requests (trace (snd r)) = [] /\ Forall not_input (trace (snd r)).
Proof.
  intros r.
  assert (live (Sim.args false) = false) as Hlive by reflexivity.
  assert (trace (snd r) = trace (Sim.start (Sim.account [])) ++ trace (snd r))
    as Htrace by reflexivity.
  exact (trial_run_never_prompts_nor_orders (Sim.args false)
           (Sim.start (Sim.account [])) (trace (snd r)) Hlive Htrace).
Defined.

(** A live run in which the user types CONFIRM. *)
Lemma orders_need_confirmation_witness :
  let r := main (Sim.args true) (Sim.start (Sim.account ["CONFIRM"])) in
  live (Sim.args true) = true
  /\ exists before prompt after,
       trace (snd r) = before ++ EInput prompt "CONFIRM" :: after
       /\ order_requests before = [].
Proof.
  intros r.
  assert (trace (snd r) = trace (Sim.start (Sim.account ["CONFIRM"])) ++ trace (snd r))
    as Htrace by reflexivity.
  assert (order_requests (trace (snd r)) <> []) as Horders
    by (vm_compute; discriminate).
  exact (orders_need_confirmation (Sim.args true)
           (Sim.start (Sim.account ["CONFIRM"])) (trace (snd r)) Htrace Horders).
Defined.

(** A key file without the private key. *)
Lemma failed_startup_contacts_nobody_witness :
  fst (main (Sim.args true) (Sim.start Scenario.no_private_key)) = 1.
Proof.
  assert (fst (load_api_credentials
                 {| api_key_path := api_key (Sim.args true);
                    min_threshold := arg_min_threshold (Sim.args true) |}
                 (Sim.start Scenario.no_private_key)) = false) as Hload
    by (vm_compute; reflexivity).
  exact (proj1 (failed_startup_contacts_nobody (Sim.args true)
                  (Sim.start Scenario.no_private_key) Hload)).
Defined.

(** The vendor lists no portfolio. *)
Lemma nothing_to_do_is_success_witness :
  fst (main (Sim.args true) (Sim.start Scenario.no_portfolios)) = 0.
Proof.
  assert (fst (load_api_credentials
                 {| api_key_path := api_key (Sim.args true);
                    min_threshold := arg_min_threshold (Sim.args true) |}
                 (Sim.start Scenario.no_portfolios)) = true) as Hload
    by (vm_compute; reflexivity).
  assert (fst (get_portfolio_balances
                 {| api_key_path := api_key (Sim.args true);
                    min_threshold := arg_min_threshold (Sim.args true) |}
                 (snd (load_api_credentials
                         {| api_key_path := api_key (Sim.args true);
                            min_threshold := arg_min_threshold (Sim.args true) |}
                         (Sim.start Scenario.no_portfolios)))) = []) as Hnone
    by (vm_compute; reflexivity).
  exact (proj1 (nothing_to_do_is_success (Sim.args true)
                  (Sim.start Scenario.no_portfolios) Hload (or_introl Hnone))).
Defined.

Lemma credentials_need_both_keys_witness :
  fst (load_api_credentials (Sim.bot (Sim.dec 1 10))
         (Sim.start Scenario.no_private_key)) = false.
Proof.
  refine (proj1 (credentials_need_both_keys (Sim.bot (Sim.dec 1 10))
                   (Sim.start Scenario.no_private_key) _)).
  intros credentials Hread. right.
  vm_compute in Hread. injection Hread as <-. vm_compute. reflexivity.
Defined.

Lemma balances_come_from_the_first_portfolio_witness :
  exists first others w1 positions w2,
    client_get_portfolios (world (Sim.start (Sim.account [])))
    = (Ok (first :: others), w1)
    /\ client_get_portfolio_breakdown (uuid first) w1 = (Ok positions, w2)
    /\ fst (get_portfolio_balances (Sim.bot (Sim.dec 1 10))
              (Sim.start (Sim.account [])))
       = omap (balance_of_position (Sim.bot (Sim.dec 1 10))) positions
    /\ trace (snd (get_portfolio_balances (Sim.bot (Sim.dec 1 10))
                     (Sim.start (Sim.account []))))
       = trace (Sim.start (Sim.account []))
           ++ [EGetPortfolios; EGetPortfolioBreakdown (uuid first)].
Proof.
  apply balances_come_from_the_first_portfolio.
  vm_compute. discriminate.
Defined.

(** BTC, a garbled ETH position, DOGE: the reader returns BTC (DOGE is
    below the threshold of ten cents). *)
Lemma unreadable_position_is_skipped_witness :
  Balance.currency_code <$>
    fst (get_portfolio_balances (Sim.bot (Sim.dec 1 10))
           (Sim.start Scenario.with_garbled_position))
  = ["BTC"].
Proof.
  assert (total_balance_crypto Scenario.garbled = None
          \/ total_balance_fiat Scenario.garbled = None) as Hbad
    by (left; reflexivity).
  assert (client_get_portfolios (world (Sim.start Scenario.with_garbled_position))
          = (Ok ({| uuid := "p1" |} :: []), Scenario.with_garbled_position))
    as Hp by reflexivity.
  assert (client_get_portfolio_breakdown (uuid {| uuid := "p1" |})
            Scenario.with_garbled_position
          = (Ok ([Sim.position "BTC" (Sim.dec 1 100) (Sim.dec 650 1)]
                   ++ Scenario.garbled
                   :: [Sim.position "DOGE" (Sim.dec 1000 1) (Sim.dec 8 100)]),
             Scenario.with_garbled_position)) as Hb by reflexivity.
  rewrite (unreadable_position_is_skipped (Sim.bot (Sim.dec 1 10))
             (Sim.start Scenario.with_garbled_position)
             _ _ _ _ _ _ _ Hp Hb Hbad).
  vm_compute. reflexivity.
Defined.

Lemma other_failures_are_not_retried_witness :
  get_current_prices_loop ["ABC"] ∅ (Sim.start Scenario.unknown_product)
  = get_current_prices_loop [] ∅
      (snd (fetch_price "ABC-USD" (Sim.start Scenario.unknown_product))).
Proof.
  assert (fetch_price ("ABC" +:+ "-USD") (Sim.start Scenario.unknown_product)
          = (Raise (HTTPError 404 "Not Found"),
             snd (fetch_price "ABC-USD" (Sim.start Scenario.unknown_product))))
    as Hfirst by reflexivity.
  assert (forall message, HTTPError 404 "Not Found" <> HTTPError 429 message)
    as Hnot by (intros message; discriminate).
  exact (proj1 (other_failures_are_not_retried "ABC" [] ∅ _
                  (Sim.start Scenario.unknown_product) _ Hfirst Hnot)).
Defined.

Lemma delivered_price_is_returned_witness :
  fst (get_current_prices_loop ["ABC"] ∅ (Sim.start Scenario.quoted)) !! "ABC"
  = Some (Sim.dec 2 1).
Proof.
  assert (fetch_price ("ABC" +:+ "-USD") (Sim.start Scenario.quoted)
          = (Ok (Sim.dec 2 1),
             snd (fetch_price "ABC-USD" (Sim.start Scenario.quoted))))
    as Hfirst by reflexivity.
  assert ("ABC" ∉ ([] : list string)) as Hfresh by apply not_elem_of_nil.
  exact (proj1 (delivered_price_is_returned "ABC" [] ∅ (Sim.dec 2 1)
                  (Sim.start Scenario.quoted) _ Hfirst Hfresh)).
Defined.

(** An account holding USDC only. *)
Lemma nothing_to_liquidate_asks_nothing_witness :
  calculate_liquidation_plan (Sim.bot (Sim.dec 1 10))
    [balance_of_holding Sim.usdc_holding] (Sim.start (Sim.account []))
  = ([], Sim.start (Sim.account [])).
Proof.
  apply nothing_to_liquidate_asks_nothing.
  constructor; [vm_compute; reflexivity | constructor].
Defined.

(** The order for BTC is accepted with the order id "ord-1". *)
Lemma accepted_order_is_recorded_witness :
  fst (execute_trade Sim.btc true (Sim.start (Sim.account []))) !! "order_id"
  = Some (VStr "ord-1").
Proof.
  assert (now (Sim.start (Sim.account []))
          = (Sim.stamp 1700000000, snd (now (Sim.start (Sim.account [])))))
    as Hnow by reflexivity.
  assert (_format_amount_for_order (Trade.currency Sim.btc) (Trade.amount Sim.btc)
          = Ok "0.01") as Hsize by (vm_compute; reflexivity).
  assert (create_order
            {| product_id := Trade.currency Sim.btc +:+ "-USD";
               side := "SELL";
               client_order_id :=
                 "liquidation_" +:+ Trade.currency Sim.btc +:+ "_"
                 +:+ pretty (timestamp (Sim.stamp 1700000000));
               base_size := "0.01" |} (snd (now (Sim.start (Sim.account []))))
          = (Ok {| order_id := Some (VStr "ord-1"); id := None |},
             snd (create_order
                    {| product_id := "BTC-USD"; side := "SELL";
                       client_order_id := "liquidation_BTC_1700000000";
                       base_size := "0.01" |}
                    (snd (now (Sim.start (Sim.account []))))))) as Hcreate
    by (vm_compute; reflexivity).
  exact (proj1 (proj2 (proj2 (accepted_order_is_recorded Sim.btc _ _ _ _ _ _
                                Hnow Hsize Hcreate)))).
Defined.

Lemma unformattable_quantity_is_not_submitted_witness :
  trace (snd (execute_trade Scenario.boundless true (Sim.start (Sim.account []))))
  = trace (Sim.start (Sim.account [])) ++ [ENow; ENow].
Proof.
  assert (Trade.amount Scenario.boundless = S754_nan
          \/ (exists sign, Trade.amount Scenario.boundless = S754_infinity sign))
    as Hamount by (right; exists false; reflexivity).
  exact (proj2 (proj2 (unformattable_quantity_is_not_submitted Scenario.boundless
                         (Sim.start (Sim.account [])) Hamount))).
Defined.

(** 4.8 XRP. *)
Lemma whole_unit_size_is_the_floor_witness :
  exists n : Z,
    _format_amount_for_order "XRP" (Sim.dec 24 5) = Ok (pretty n)
    /\ (inject_Z n <= 5404319552844595 # 1125899906842624)%Q
    /\ (5404319552844595 # 1125899906842624 < inject_Z (n + 1))%Q.
Proof.
  assert (precision_of "XRP" = 0) as Hp by (vm_compute; reflexivity).
  assert (PyFloat.to_Q (Sim.dec 24 5)
          = Some (5404319552844595 # 1125899906842624)%Q) as Hq
    by (vm_compute; reflexivity).
  exact (whole_unit_size_is_the_floor "XRP" (Sim.dec 24 5) _ Hp Hq).
Defined.

Lemma report_is_named_after_the_mode_witness :
  fst (fst (generate_csv_report
              (fst (execute_liquidation [Sim.btc] false (Sim.start (Sim.account []))))
              None (Sim.start (Sim.account []))))
  = Ok "coinbase_liquidation_report_trial_D1700000000.csv".
Proof.
  assert ([Sim.btc] <> []) as Hne by discriminate.
  rewrite (report_is_named_after_the_mode [Sim.btc] false
             (Sim.start (Sim.account [])) (Sim.start (Sim.account [])) Hne).
  vm_compute. reflexivity.
Defined.

Lemma missing_status_stops_the_report_witness :
  reports (trace (snd (generate_csv_report [Scenario.statusless] None
                         (Sim.start (Sim.account [])))))
  = [].
Proof.
  assert (Scenario.statusless !! "status" = None) as Hstatus
    by (vm_compute; reflexivity).
  rewrite (proj2 (missing_status_stops_the_report Scenario.statusless []
                    (Sim.start (Sim.account [])) Hstatus)).
  reflexivity.
Defined.

(** The account listing, read and planned: ABC is looked up and valued at
    5 times its price; the account without a value and USDC give nothing. *)
Example account_listing_is_planned :
  Balance.currency_code <$> fst (get_account_balances (Sim.start Scenario.quoted))
  = ["ABC"; "USDC"]
  /\ (fun o => (Trade.currency o, Trade.usd_value o)) <$>
       fst (calculate_liquidation_plan (Sim.bot (Sim.dec 1 10))
              (fst (get_account_balances (Sim.start Scenario.quoted)))
              (Sim.start Scenario.quoted))
     = [("ABC", Sim.dec 10 1)].
Proof. split; vm_compute; reflexivity. Qed.
